(** * lunchmoney: a typed client for the Lunch Money API

    Shallow embedding of the Go package [lunchmoney] (crypto.go and the
    transactions file) and of the parts of its libraries that decide the
    behaviour of the client methods: [encoding/json] (decoding of response
    bodies, [Marshal]/[Unmarshal] in [ToMap]), [time.Parse] for the layout
    [2006-01-02], and the tag rules of [go-playground/validator] that the
    structs of this package declare.

    Conventions.
    - A Go [string] is a sequence of bytes: Rocq's [string] of [ascii].
    - [int] and [int64] are [Z]; the package does no arithmetic on them, the
      64-bit range matters only when a JSON number is decoded.
    - A pointer [*T] is [option T] ([None] is [nil]); a slice [[]T] is
      [option (list T)], so that the nil slice and the empty slice differ.
      What the backing array of a slice holds beyond its length is kept
      in the state of the decoder, the only code that reads it.
    - An error is a value of [error]; the text of an error that a library
      or the transport built is a parameter, the texts that the package
      builds with [fmt.Errorf] are spelled out.
    - A Go result [(T, error)] is a pair whose second component is
      [option error] ([None] is the nil error).
    - Every call of the HTTP transport and every call of [validate.Struct]
      is recorded, in program order, in the trace of the run. *)

From Stdlib Require Import ZArith Ascii String List Bool Lia.
From stdpp Require Import strings gmap list pretty.

#[local] Open Scope string_scope.
#[local] Open Scope Z_scope.

(** ** Go strings and bytes *)

Definition byte (c : ascii) : Z := Z.of_N (N_of_ascii c).

Definition chr (b : Z) : ascii := ascii_of_N (Z.to_N b).

Definition is_digit (c : ascii) : bool := (48 <=? byte c) && (byte c <=? 57).

Definition digit_val (c : ascii) : Z := byte c - 48.

(** [strings.HasPrefix]. *)
Fixpoint HasPrefix (s prefix : string) {struct prefix} : bool :=
  match prefix, s with
  | EmptyString, _ => true
  | String p prefix', String c s' => Ascii.eqb c p && HasPrefix s' prefix'
  | String _ _, EmptyString => false
  end.

(** [strings.Contains]. *)
Fixpoint Contains (s substr : string) : bool :=
  HasPrefix s substr ||
  match s with
  | EmptyString => false
  | String _ s' => Contains s' substr
  end.

(** The text of a JSON document written with ['] for the double quote,
    byte 34. *)
Fixpoint jsonText (s : string) : string :=
  match s with
  | EmptyString => EmptyString
  | String c s' => String (if byte c =? 39 then chr 34 else c) (jsonText s')
  end.

(** [strconv.Itoa] and the verb [%d] of [fmt]: base-10 text. *)
Definition Itoa (n : Z) : string := pretty n.

(** The range of [int64] (and of [int] on 64-bit platforms). *)
Definition in_int64 (n : Z) : bool := (- 2 ^ 63 <=? n) && (n <? 2 ^ 63).

(** ** Errors

    One constructor per error type that reaches a caller of this package.
    [wrapError] is what [fmt.Errorf] builds for a format with one [%w]. *)

Record FieldError := {
  fe_Namespace : string;
  fe_Field : string;
  fe_Tag : string
}.

Inductive error :=
  | TransportError (msg : string)
      (* whatever [Client.Get]/[Client.Put] report: connection failures and
         non-2xx statuses alike *)
  | io_EOF
  | io_ErrUnexpectedEOF
  | SyntaxError (c : ascii) (context : string)
      (* json.SyntaxError: the byte the scanner refused and what it was
         reading, the two variable parts of the message *)
  | UnmarshalTypeError (Value : string) (Type_ : string)
      (* json.UnmarshalTypeError: the fields Value and Type; Offset, Struct
         and Field are not represented *)
  | UnmarshalerError (what : string)
      (* an error returned by a field's own UnmarshalJSON (time.Time);
         [what] tells the two cases apart and is not its message *)
  | InvalidValidationError (Type_ : string)          (* validator *)
  | ValidationErrors (errs : list FieldError)        (* validator *)
  | ErrMalformedAmount                               (* currency parsing *)
  | ErrUnknownCurrency                               (* currency parsing *)
  | wrapError (msg : string) (err : error).

(** What the package takes from its environment.

    [context.Context] is only handed on to the transport. A [time.Time] is
    produced by [Time.UnmarshalJSON] from an RFC 3339 string and a
    [float64] by [strconv.ParseFloat] from a number literal; the package
    never looks inside either, so both conversions are parameters (the
    time conversion is given the unquoted string). The package never
    inspects the message of an error that a library or the transport
    built, it only copies it behind a prefix; these messages vary with
    the version of the library, and are a parameter too ([errorText]). *)
Class Env := {
  Ctx : Type;
  Time : Type;
  zeroTime : Time;
  parseRFC3339 : string → option Time;
  float64 : Type;
  zeroFloat : float64;
  ParseFloat : string → option float64;
  errorText : error → string
}.

(** The method [Error()] of the interface [error]: the text that
    [fmt.Errorf] built, or the text of the library. *)
Definition Error `{env : Env} (e : error) : string :=
  match e with
  | wrapError msg _ => msg
  | _ => errorText e
  end.

(** [errors.Unwrap]. *)
Definition Unwrap (e : error) : option error :=
  match e with
  | wrapError _ err => Some err
  | _ => None
  end.

(** [fmt.Errorf(prefix + "%w", err)]: the message is the prefix followed by
    the message of [err], and [err] stays reachable through [Unwrap]. *)
Definition Errorf_w `{env : Env} (prefix : string) (err : error) : error :=
  wrapError (prefix +:+ Error err) err.

(** ** [time.Parse] for the layout [2006-01-02]

    The only layout this package passes (through the validator tag
    [datetime=2006-01-02]). The layout splits into the chunks
    [stdLongYear], ["-"], [stdZeroMonth], ["-"], [stdZeroDay]. *)

Module time.

Definition isDigit (s : string) (i : nat) : bool :=
  match String.get i s with
  | Some c => is_digit c
  | None => false
  end.

(** [leadingInt]: the leading digits of [s] as a number, and the rest;
    [None] on overflow of 63 bits. *)
Fixpoint leadingInt (x : Z) (s : string) : option (Z * string) :=
  match s with
  | EmptyString => Some (x, s)
  | String c s' =>
      if is_digit c then
        if 2 ^ 63 / 10 <? x then None
        else
          let x' := x * 10 + digit_val c in
          if 2 ^ 63 <? x' then None else leadingInt x' s'
      else Some (x, s)
  end.

Definition atoi (s : string) : option Z :=
  let '(neg, s) :=
    match s with
    | String c s' =>
        if Ascii.eqb c "-" then (true, s')
        else if Ascii.eqb c "+" then (false, s')
        else (false, s)
    | EmptyString => (false, s)
    end in
  match leadingInt 0 s with
  | Some (q, EmptyString) => Some (if neg then - q else q)
  | _ => None
  end.

(** [getnum]: one or two digits; exactly two when [fixed]. *)
Definition getnum (s : string) (fixed : bool) : option (Z * string) :=
  if negb (isDigit s 0) then None
  else if negb (isDigit s 1) then
    if fixed then None
    else
      match s with
      | String c0 s' => Some (digit_val c0, s')
      | EmptyString => None
      end
  else
    match s with
    | String c0 (String c1 s') => Some (digit_val c0 * 10 + digit_val c1, s')
    | _ => None
    end.

(** [skip], for a prefix without spaces (the layout has none). *)
Fixpoint skip (value prefix : string) {struct prefix} : option string :=
  match prefix with
  | EmptyString => Some value
  | String p prefix' =>
      match value with
      | String v value' => if Ascii.eqb v p then skip value' prefix' else None
      | EmptyString => None
      end
  end.

Definition isLeap (year : Z) : bool :=
  (year mod 4 =? 0) && (negb (year mod 100 =? 0) || (year mod 400 =? 0)).

Definition February : Z := 2.

Definition daysIn (m year : Z) : Z :=
  if m =? February then (if isLeap year then 29 else 28)
  else 30 + Z.land (m + Z.shiftr m 3) 1.

(** [Parse("2006-01-02", value)]: year, month and day, or [None] where
    [Parse] returns an error. *)
Definition Parse_2006_01_02 (value : string) : option (Z * Z * Z) :=
  (* stdLongYear *)
  if (String.length value <? 4)%nat || negb (isDigit value 0) then None
  else
    let p := substring 0 4 value in
    let value := substring 4 (String.length value - 4) value in
    year ← atoi p;
    value ← skip value "-";
    (* stdZeroMonth *)
    '(month, value) ← getnum value true;
    if (month <=? 0) || (12 <? month) then None
    else
      value ← skip value "-";
      (* stdZeroDay *)
      '(day, value) ← getnum value true;
      (* end of layout: no text may remain *)
      if negb (String.eqb value "") then None
      (* validate the day of the month *)
      else if (day <? 1) || (daysIn month year <? day) then None
      else Some (year, month, day).

End time.

(** ** The validator rules this package uses *)

Module validator.

(** The validation function of the tag [datetime=2006-01-02]. *)
Definition isDatetime (field : string) : bool :=
  bool_decide (is_Some (time.Parse_2006_01_02 field)).

(** Splits the parameter of [oneof] at spaces (no parameter of this
    package is quoted). *)
Fixpoint splitFields (cur : string) (s : string) : list string :=
  match s with
  | EmptyString => if String.eqb cur "" then [] else [cur]
  | String c s' =>
      if Ascii.eqb c " " then
        ((if String.eqb cur "" then [] else [cur]) ++ splitFields "" s')%list
      else splitFields (cur +:+ String c "") s'
  end.

Definition parseOneOfParam2 (param : string) : list string :=
  splitFields "" param.

(** The validation function of the tag [oneof=...]. *)
Definition isOneOf (param field : string) : bool :=
  existsb (String.eqb field) (parseOneOfParam2 param).

Definition fieldError (strct field tag : string) : FieldError :=
  {| fe_Namespace := strct +:+ "." +:+ field;
     fe_Field := field;
     fe_Tag := tag |}.

(** A [string] field tagged [omitempty,datetime=2006-01-02]. *)
Definition omitempty_datetime (strct field value : string) : list FieldError :=
  if String.eqb value "" then []
  else if isDatetime value then []
  else [fieldError strct field "datetime"].

(** A [*string] field tagged [omitnil,datetime=2006-01-02]. *)
Definition omitnil_datetime (strct field : string) (value : option string)
  : list FieldError :=
  match value with
  | None => []
  | Some s => if isDatetime s then [] else [fieldError strct field "datetime"]
  end.

(** A [*string] field tagged [omitnil,oneof=param]. *)
Definition omitnil_oneof (strct field param : string) (value : option string)
  : list FieldError :=
  match value with
  | None => []
  | Some s => if isOneOf param s then [] else [fieldError strct field "oneof"]
  end.

(** [Struct] returns nil when no field failed, and all failures
    otherwise. *)
Definition report (errs : list FieldError) : option error :=
  match errs with
  | [] => None
  | _ => Some (ValidationErrors errs)
  end.

End validator.

(** ** [encoding/json]: reading one JSON value from a body

    [json.NewDecoder(body).Decode] reads the first JSON value of the stream
    and leaves whatever follows it unread. The scanner below accepts the
    grammar of Go's scanner byte for byte, left to right, so that the first
    offending byte (a syntax error) or the end of the input (an unexpected
    EOF) is met in the same order. *)

Module json.

#[local] Set Warnings "-register-all".

Inductive value :=
  | JNull
  | JBool (b : bool)
  | JNumber (lit : string)    (* the literal; converted at the target type *)
  | JString (s : string)      (* unquoted *)
  | JArray (elems : list value)
  | JObject (members : list (string * value)).

(** Result of scanning: a value and the unread rest, the end of the input
    inside a value, or an invalid byte. *)
Inductive scan (A : Type) :=
  | Scanned (a : A) (rest : string)
  | ScanEOF
  | ScanError (c : ascii) (context : string).
Arguments Scanned {A} a rest.
Arguments ScanEOF {A}.
Arguments ScanError {A} c context.

Definition isSpace (c : ascii) : bool :=
  Ascii.eqb c " " || (byte c =? 9) || (byte c =? 13) || (byte c =? 10).

Fixpoint skipSpace (s : string) : string :=
  match s with
  | String c s' => if isSpace c then skipSpace s' else s
  | EmptyString => s
  end.

(** *** UTF-8 and UTF-16, as [unquote] uses them *)

Definition RuneError : Z := 65533.

(** [utf8.AppendRune]. *)
Definition EncodeRune (r : Z) : string :=
  if (r <? 0) || (1114111 <? r) || ((55296 <=? r) && (r <=? 57343)) then
    String (chr 239) (String (chr 191) (String (chr 189) ""))
  else if r <? 128 then String (chr r) ""
  else if r <? 2048 then
    String (chr (192 + Z.shiftr r 6)) (String (chr (128 + Z.land r 63)) "")
  else if r <? 65536 then
    String (chr (224 + Z.shiftr r 12))
      (String (chr (128 + Z.land (Z.shiftr r 6) 63))
         (String (chr (128 + Z.land r 63)) ""))
  else
    String (chr (240 + Z.shiftr r 18))
      (String (chr (128 + Z.land (Z.shiftr r 12) 63))
         (String (chr (128 + Z.land (Z.shiftr r 6) 63))
            (String (chr (128 + Z.land r 63)) ""))).

Definition cont (lo hi : Z) (c : ascii) : bool := (lo <=? byte c) && (byte c <=? hi).

(** [utf8.DecodeRune] on a non-ASCII first byte [c0] followed by [s]:
    the bytes that complete a well-formed sequence and what follows them,
    or [None] where DecodeRune answers (RuneError, 1). *)
Definition wellFormedTail (c0 : ascii) (s : string) : option (string * string) :=
  let b := byte c0 in
  let one (lo hi : Z) :=
    match s with
    | String c1 r =>
        if cont lo hi c1 then Some (String c1 "", r) else None
    | _ => None
    end in
  let two (lo hi : Z) :=
    match s with
    | String c1 (String c2 r) =>
        if cont lo hi c1 && cont 128 191 c2
        then Some (String c1 (String c2 ""), r) else None
    | _ => None
    end in
  let three (lo hi : Z) :=
    match s with
    | String c1 (String c2 (String c3 r)) =>
        if cont lo hi c1 && cont 128 191 c2 && cont 128 191 c3
        then Some (String c1 (String c2 (String c3 "")), r) else None
    | _ => None
    end in
  if (194 <=? b) && (b <=? 223) then one 128 191
  else if b =? 224 then two 160 191
  else if b =? 237 then two 128 159
  else if (225 <=? b) && (b <=? 239) then two 128 191
  else if b =? 240 then three 144 191
  else if (241 <=? b) && (b <=? 243) then three 128 191
  else if b =? 244 then three 128 143
  else None.

Definition hexVal (c : ascii) : option Z :=
  let b := byte c in
  if (48 <=? b) && (b <=? 57) then Some (b - 48)
  else if (97 <=? b) && (b <=? 102) then Some (b - 97 + 10)
  else if (65 <=? b) && (b <=? 70) then Some (b - 65 + 10)
  else None.

(** The first byte of [s], among its first [k], that is no hexadecimal
    digit: the byte the scanner refuses inside a [\u] escape. [None] when
    the input ends before such a byte. *)
Fixpoint badHex (k : nat) (s : string) : option ascii :=
  match k, s with
  | S k, String h s' => if bool_decide (is_Some (hexVal h)) then badHex k s' else Some h
  | _, _ => None
  end.

(** [getu4]: the rune of a leading [\uXXXX], and the rest. *)
Definition getu4 (s : string) : option (Z * string) :=
  match s with
  | String c0 (String c1 (String h1 (String h2 (String h3 (String h4 rest))))) =>
      if Ascii.eqb c0 "\" && Ascii.eqb c1 "u" then
        a ← hexVal h1; b ← hexVal h2; c ← hexVal h3; d ← hexVal h4;
        Some (a * 4096 + b * 256 + c * 16 + d, rest)
      else None
  | _ => None
  end.

Definition IsSurrogate (r : Z) : bool := (55296 <=? r) && (r <? 57344).

(** [utf16.DecodeRune]. *)
Definition utf16_DecodeRune (r1 r2 : Z) : Z :=
  if (55296 <=? r1) && (r1 <? 56320) && (56320 <=? r2) && (r2 <? 57344)
  then Z.lor (Z.shiftl (r1 - 55296) 10) (r2 - 56320) + 65536
  else RuneError.

(** *** String literals

    [scanString s] reads the literal whose opening quote has just been
    consumed: the scanner's states [stateInString], [stateInStringEsc] and
    [stateInStringEscU...], and the decoding of [unquote], in one pass.
    [n] bounds the pass by the length of the input. *)
Fixpoint scanString (n : nat) (acc : string) (s : string) : scan string :=
  match n with
  | O => ScanEOF
  | S n =>
      match s with
      | EmptyString => ScanEOF
      | String c s' =>
          if byte c =? 34 then Scanned acc s'
          else if Ascii.eqb c "\" then
            match s' with
            | EmptyString => ScanEOF
            | String e s'' =>
                let simple (b : Z) := scanString n (acc +:+ String (chr b) "") s'' in
                if byte e =? 34 then simple 34
                else if Ascii.eqb e "\" then simple 92
                else if Ascii.eqb e "/" then simple 47
                else if Ascii.eqb e "b" then simple 8
                else if Ascii.eqb e "f" then simple 12
                else if Ascii.eqb e "n" then simple 10
                else if Ascii.eqb e "r" then simple 13
                else if Ascii.eqb e "t" then simple 9
                else if Ascii.eqb e "u" then
                  match getu4 s with
                  | Some (rr, rest) =>
                      if IsSurrogate rr then
                        match getu4 rest with
                        | Some (rr1, rest1) =>
                            let dec := utf16_DecodeRune rr rr1 in
                            if dec =? RuneError
                            then scanString n (acc +:+ EncodeRune RuneError) rest
                            else scanString n (acc +:+ EncodeRune dec) rest1
                        | None => scanString n (acc +:+ EncodeRune RuneError) rest
                        end
                      else scanString n (acc +:+ EncodeRune rr) rest
                  | None =>
                      match badHex 4 s'' with
                      | Some h => ScanError h "in \u hexadecimal character escape"
                      | None => ScanEOF
                      end
                  end
                else ScanError e "in string escape code"
            end
          else if byte c <? 32 then ScanError c "in string literal"
          else if byte c <? 128 then scanString n (acc +:+ String c "") s'
          else
            (* coerce to well-formed UTF-8 *)
            match wellFormedTail c s' with
            | Some (tail, rest) => scanString n (acc +:+ String c tail) rest
            | None => scanString n (acc +:+ EncodeRune RuneError) s'
            end
      end
  end.

(** *** Numbers and the literals [true], [false], [null] *)

Fixpoint digits (s : string) : string * string :=
  match s with
  | String c s' =>
      if is_digit c then let '(d, r) := digits s' in (String c d, r)
      else ("", s)
  | EmptyString => ("", s)
  end.

(** At least one digit, as after [.] and after the exponent mark. *)
Definition digits1 (context : string) (s : string) : scan string :=
  match s with
  | EmptyString => ScanEOF
  | String c _ =>
      if is_digit c then let '(d, r) := digits s in Scanned d r
      else ScanError c context
  end.

(** The integer part: [0], or a digit from 1 to 9 and more digits. *)
Definition scanInt (s : string) : scan string :=
  match s with
  | EmptyString => ScanEOF
  | String c r =>
      if Ascii.eqb c "0" then Scanned "0" r
      else if is_digit c then let '(d, r') := digits r in Scanned (String c d) r'
      else ScanError c "in numeric literal"
  end.

(** The optional fraction: a point and at least one digit. *)
Definition scanFrac (s : string) : scan string :=
  match s with
  | String c r =>
      if Ascii.eqb c "." then
        match digits1 "after decimal point in numeric literal" r with
        | Scanned d r' => Scanned (String c d) r'
        | ScanEOF => ScanEOF
        | ScanError bad m => ScanError bad m
        end
      else Scanned "" s
  | EmptyString => Scanned "" s
  end.

(** The optional exponent: [e] or [E], an optional sign, and at least one
    digit. *)
Definition scanExp (s : string) : scan string :=
  match s with
  | String e r =>
      if Ascii.eqb e "e" || Ascii.eqb e "E" then
        let '(esign, r) :=
          match r with
          | String sg r' =>
              if Ascii.eqb sg "+" || Ascii.eqb sg "-" then (String sg "", r')
              else ("", r)
          | EmptyString => ("", r)
          end in
        match digits1 "in exponent of numeric literal" r with
        | Scanned d r' => Scanned (String e esign +:+ d) r'
        | ScanEOF => ScanEOF
        | ScanError bad m => ScanError bad m
        end
      else Scanned "" s
  | EmptyString => Scanned "" s
  end.

Definition scanNumber (s : string) : scan string :=
  let '(sign, s) :=
    match s with
    | String c r => if Ascii.eqb c "-" then (String c "", r) else ("", s)
    | EmptyString => ("", s)
    end in
  match scanInt s with
  | Scanned int s =>
      match scanFrac s with
      | Scanned frac s =>
          match scanExp s with
          | Scanned exp s => Scanned (sign +:+ int +:+ frac +:+ exp) s
          | ScanEOF => ScanEOF
          | ScanError bad m => ScanError bad m
          end
      | ScanEOF => ScanEOF
      | ScanError bad m => ScanError bad m
      end
  | ScanEOF => ScanEOF
  | ScanError bad m => ScanError bad m
  end.

(** The rest [word] of the literal [name], whose first byte has been
    consumed. *)
Fixpoint scanWord (name word : string) (s : string) : scan unit :=
  match word with
  | EmptyString => Scanned () s
  | String w word' =>
      match s with
      | EmptyString => ScanEOF
      | String c s' =>
          if Ascii.eqb c w then scanWord name word' s'
          else ScanError c ("in literal " +:+ name +:+ " (expecting '" +:+
                            String w "')")
      end
  end.

(** *** Values *)

Definition maxNestingDepth : Z := 10000.

(** An object key and its colon. *)
Definition scanKey (s : string) : scan string :=
  match skipSpace s with
  | EmptyString => ScanEOF
  | String c r =>
      if byte c =? 34 then
        match scanString (String.length r) "" r with
        | Scanned key r' =>
            match skipSpace r' with
            | EmptyString => ScanEOF
            | String c' r'' =>
                if Ascii.eqb c' ":" then Scanned key r''
                else ScanError c' "after object key"
            end
        | ScanEOF => ScanEOF
        | ScanError bad m => ScanError bad m
        end
      else ScanError c "looking for beginning of object key string"
  end.

(** [scanValue] reads one value; [scanArrayRest] and [scanObjectRest]
    continue a composite after one of its elements. The answer is [None]
    when the fuel is exhausted, which a fuel above the length of the input
    never is: every call consumes at least one byte before it calls
    again. *)
Fixpoint scanValue (fuel : nat) (depth : Z) (s : string) : option (scan value) :=
  match fuel with
  | O => None
  | S fuel =>
      match skipSpace s with
      | EmptyString => Some ScanEOF
      | String c r =>
          if Ascii.eqb c "{" then
            if maxNestingDepth <? depth + 1 then Some (ScanError c "exceeded max depth")
            else
              match skipSpace r with
              | EmptyString => Some ScanEOF
              | String c' r' =>
                  if Ascii.eqb c' "}" then Some (Scanned (JObject []) r')
                  else
                    match scanKey r with
                    | Scanned key r1 =>
                        match scanValue fuel (depth + 1) r1 with
                        | Some (Scanned v r2) =>
                            match scanObjectRest fuel (depth + 1) [(key, v)] r2 with
                            | Some (Scanned ms r3) => Some (Scanned (JObject ms) r3)
                            | Some ScanEOF => Some ScanEOF
                            | Some (ScanError bad m) => Some (ScanError bad m)
                            | None => None
                            end
                        | Some ScanEOF => Some ScanEOF
                        | Some (ScanError bad m) => Some (ScanError bad m)
                        | None => None
                        end
                    | ScanEOF => Some ScanEOF
                    | ScanError bad m => Some (ScanError bad m)
                    end
              end
          else if Ascii.eqb c "[" then
            if maxNestingDepth <? depth + 1 then Some (ScanError c "exceeded max depth")
            else
              match skipSpace r with
              | EmptyString => Some ScanEOF
              | String c' r' =>
                  if Ascii.eqb c' "]" then Some (Scanned (JArray []) r')
                  else
                    match scanValue fuel (depth + 1) r with
                    | Some (Scanned v r1) =>
                        match scanArrayRest fuel (depth + 1) [v] r1 with
                        | Some (Scanned vs r2) => Some (Scanned (JArray vs) r2)
                        | Some ScanEOF => Some ScanEOF
                        | Some (ScanError bad m) => Some (ScanError bad m)
                        | None => None
                        end
                    | Some ScanEOF => Some ScanEOF
                    | Some (ScanError bad m) => Some (ScanError bad m)
                    | None => None
                    end
              end
          else if byte c =? 34 then
            match scanString (String.length r) "" r with
            | Scanned str r' => Some (Scanned (JString str) r')
            | ScanEOF => Some ScanEOF
            | ScanError bad m => Some (ScanError bad m)
            end
          else if Ascii.eqb c "-" || is_digit c then
            match scanNumber (String c r) with
            | Scanned lit r' => Some (Scanned (JNumber lit) r')
            | ScanEOF => Some ScanEOF
            | ScanError bad m => Some (ScanError bad m)
            end
          else if Ascii.eqb c "t" then
            match scanWord "true" "rue" r with
            | Scanned _ r' => Some (Scanned (JBool true) r')
            | ScanEOF => Some ScanEOF
            | ScanError bad m => Some (ScanError bad m)
            end
          else if Ascii.eqb c "f" then
            match scanWord "false" "alse" r with
            | Scanned _ r' => Some (Scanned (JBool false) r')
            | ScanEOF => Some ScanEOF
            | ScanError bad m => Some (ScanError bad m)
            end
          else if Ascii.eqb c "n" then
            match scanWord "null" "ull" r with
            | Scanned _ r' => Some (Scanned JNull r')
            | ScanEOF => Some ScanEOF
            | ScanError bad m => Some (ScanError bad m)
            end
          else Some (ScanError c "looking for beginning of value")
      end
  end
with scanArrayRest (fuel : nat) (depth : Z) (acc : list value) (s : string)
  : option (scan (list value)) :=
  match fuel with
  | O => None
  | S fuel =>
      match skipSpace s with
      | EmptyString => Some ScanEOF
      | String c r =>
          if Ascii.eqb c "]" then Some (Scanned (rev acc) r)
          else if Ascii.eqb c "," then
            match scanValue fuel depth r with
            | Some (Scanned v r1) => scanArrayRest fuel depth (v :: acc) r1
            | Some ScanEOF => Some ScanEOF
            | Some (ScanError bad m) => Some (ScanError bad m)
            | None => None
            end
          else Some (ScanError c "after array element")
      end
  end
with scanObjectRest (fuel : nat) (depth : Z) (acc : list (string * value))
       (s : string) : option (scan (list (string * value))) :=
  match fuel with
  | O => None
  | S fuel =>
      match skipSpace s with
      | EmptyString => Some ScanEOF
      | String c r =>
          if Ascii.eqb c "}" then Some (Scanned (rev acc) r)
          else if Ascii.eqb c "," then
            match scanKey r with
            | Scanned key r1 =>
                match scanValue fuel depth r1 with
                | Some (Scanned v r2) => scanObjectRest fuel depth ((key, v) :: acc) r2
                | Some ScanEOF => Some ScanEOF
                | Some (ScanError bad m) => Some (ScanError bad m)
                | None => None
                end
            | ScanEOF => Some ScanEOF
            | ScanError bad m => Some (ScanError bad m)
            end
          else Some (ScanError c "after object key:value pair")
      end
  end.

(** [Decoder.readValue]: the first value of the body. The end of the
    input before the value is complete is [io.EOF] when nothing but white
    space was read and [io.ErrUnexpectedEOF] otherwise. The fuel given is
    enough, see [scanValue_fuel]. *)
Definition readValue (body : string) : value + error :=
  match scanValue (S (String.length body)) 0 body with
  | Some (Scanned v _) => inl v
  | Some ScanEOF =>
      inr (if String.eqb (skipSpace body) "" then io_EOF else io_ErrUnexpectedEOF)
  | Some (ScanError c context) => inr (SyntaxError c context)
  | None => inr io_ErrUnexpectedEOF     (* never taken *)
  end.

(** *** Storing a value into a Go variable

    [Unmarshal] and [Decode] keep going after a value of the wrong JSON
    kind: the first such [UnmarshalTypeError] is saved and returned at the
    end. An error of a field's own [UnmarshalJSON] aborts the decoding at
    once. Every caller in this package discards the target when an error
    is returned, so the model does not describe what a failed store leaves
    behind.

    A slice that the decoder shortens keeps its backing array, and a
    later array read into the same slice is stored into the elements that
    array still holds. The state of a decoding therefore carries, next to
    the saved error, the elements of the backing array beyond the length
    of the slice ([spare]): the targets of this package hold at most one
    slice, whose elements have the type [S]. *)

Record dstate (S : Type) := mkDstate {
  savedError : option error;
  spare : list S
}.
Arguments mkDstate {S} savedError spare.
Arguments savedError {S} d.
Arguments spare {S} d.

Inductive dres (S A : Type) :=
  | Stored (a : A) (st : dstate S)
  | Aborted (e : error).
Arguments Stored {S A} a st.
Arguments Aborted {S A} e.

Definition D (S A : Type) : Type := dstate S → dres S A.

Definition ret {S A} (a : A) : D S A := λ st, Stored a st.

Definition bind {S A B} (m : D S A) (f : A → D S B) : D S B :=
  λ st,
    match m st with
    | Stored a st' => f a st'
    | Aborted e => Aborted e
    end.

(** [decodeState.saveError]: only the first error is kept. *)
Definition saveError {S} (e : error) : D S unit :=
  λ st,
    Stored ()
      (mkDstate (match savedError st with None => Some e | Some _ => savedError st end)
         (spare st)).

Definition abort {S A} (e : error) : D S A := λ _, Aborted e.

Definition getSpare {S} : D S (list S) := λ st, Stored (spare st) st.

Definition setSpare {S} (l : list S) : D S unit :=
  λ st, Stored () (mkDstate (savedError st) l).

(** The state in which a decoding starts. *)
Definition start {S} : dstate S := mkDstate None [].

Definition kindName (v : value) : string :=
  match v with
  | JNull => "null"
  | JBool _ => "bool"
  | JNumber _ => "number"
  | JString _ => "string"
  | JArray _ => "array"
  | JObject _ => "object"
  end.

Definition typeError {S A} (cur : A) (v : value) (ty : string) : D S A :=
  bind (saveError (UnmarshalTypeError (kindName v) ty)) (λ _, ret cur).

(** [strconv.ParseInt(lit, 10, 64)] on a JSON number literal. *)
Fixpoint allDigits (acc : Z) (s : string) : option Z :=
  match s with
  | EmptyString => Some acc
  | String c s' => if is_digit c then allDigits (acc * 10 + digit_val c) s' else None
  end.

Definition ParseInt (lit : string) : option Z :=
  let '(neg, s) :=
    match lit with
    | String "-" r => (true, r)
    | _ => (false, lit)
    end in
  match s with
  | EmptyString => None
  | _ =>
      n ← allDigits 0 s;
      let n := if neg then - n else n in
      if in_int64 n then Some n else None
  end.

Definition store_string {S} (cur : string) (v : value) : D S string :=
  match v with
  | JString s => ret s
  | JNull => ret cur
  | _ => typeError cur v "string"
  end.

Definition store_bool {S} (cur : bool) (v : value) : D S bool :=
  match v with
  | JBool b => ret b
  | JNull => ret cur
  | _ => typeError cur v "bool"
  end.

(** [int] and [int64] targets; [ty] is the name of the Go type. *)
Definition store_int {S} (ty : string) (cur : Z) (v : value) : D S Z :=
  match v with
  | JNumber lit =>
      match ParseInt lit with
      | Some n => ret n
      | None =>
          bind (saveError (UnmarshalTypeError ("number " +:+ lit) ty)) (λ _, ret cur)
      end
  | JNull => ret cur
  | _ => typeError cur v ty
  end.

(** A pointer target: [null] stores nil, anything else is stored into the
    pointee, allocated when the pointer is nil. *)
Definition store_ptr {S A} (store : A → value → D S A) (zero : A)
    (cur : option A) (v : value) : D S (option A) :=
  match v with
  | JNull => ret None
  | _ => bind (store (default zero cur) v) (λ a, ret (Some a))
  end.

(** The elements of an array, stored into the backing array [array] of a
    slice: element [i] is stored into what the array holds at [i], and
    into a zero element beyond the end of the array (a backing array that
    grows is extended by zero elements). *)
Fixpoint store_elems {S A} (store : A → value → D S A) (zero : A)
    (array : list A) (elems : list value) : D S (list A) :=
  match elems with
  | [] => ret []
  | v :: elems' =>
      bind (store (hd zero array) v) (λ a,
      bind (store_elems store zero (tl array) elems') (λ l,
      ret (a :: l)))
  end.

(** A slice target. [null] stores the nil slice and the empty array a new
    empty slice, both without a backing array. Any other array is stored
    into the backing array of the slice, that is its elements followed by
    the spare ones; the slice is cut to the length of the array read, and
    what the backing array holds beyond it stays there. *)
Definition store_slice {A} (store : A → value → D A A) (zero : A) (ty : string)
    (cur : option (list A)) (v : value) : D A (option (list A)) :=
  match v with
  | JNull => bind (setSpare []) (λ _, ret None)
  | JArray [] => bind (setSpare []) (λ _, ret (Some []))
  | JArray elems =>
      bind getSpare (λ sp,
      let array := (default [] cur ++ sp)%list in
      bind (store_elems store zero array elems) (λ l,
      bind (setSpare (drop (length elems) array)) (λ _,
      ret (Some l))))
  | _ => typeError cur v ty
  end.

(** [foldName]: ASCII letters fold to upper case; of the other runes only
    U+017F and U+212A fold to an ASCII letter ([S] and [K]). The remaining
    bytes are kept, they match no field name of this package. *)
Fixpoint foldName (s : string) : string :=
  match s with
  | EmptyString => EmptyString
  | String c s' =>
      let b := byte c in
      if b <? 128 then
        String (if (97 <=? b) && (b <=? 122) then chr (b - 32) else c) (foldName s')
      else
        match s' with
        | String c1 s1 =>
            if (b =? 197) && (byte c1 =? 191) then String "S" (foldName s1)
            else
              match s1 with
              | String c2 s2 =>
                  if (b =? 226) && (byte c1 =? 132) && (byte c2 =? 170)
                  then String "K" (foldName s2)
                  else String c (foldName s')
              | EmptyString => String c (foldName s')
              end
        | EmptyString => String c EmptyString
        end
  end.

(** The field an object key names: the field with exactly this JSON name,
    or else the first field whose name equals it under folding. *)
Definition lookupField (fields : list string) (key : string) : option string :=
  match find (String.eqb key) fields with
  | Some name => Some name
  | None => find (λ name, String.eqb (foldName name) (foldName key)) fields
  end.

(** The members of an object, stored into a struct in the order of the
    text; keys that name no field are skipped. *)
Fixpoint store_members {S A} (fields : list string)
    (storeField : string → A → value → D S A) (cur : A)
    (members : list (string * value)) : D S A :=
  match members with
  | [] => ret cur
  | (key, v) :: members' =>
      bind
        match lookupField fields key with
        | Some name => storeField name cur v
        | None => ret cur
        end
        (λ cur', store_members fields storeField cur' members')
  end.

Definition store_struct {S A} (ty : string) (fields : list string)
    (storeField : string → A → value → D S A) (cur : A) (v : value) : D S A :=
  match v with
  | JObject members => store_members fields storeField cur members
  | JNull => ret cur
  | _ => typeError cur v ty
  end.

(** A [map[string]string] target ([None] is the nil map): every member is
    stored into a fresh element, which is then written under its key,
    also when storing it saved an error. *)
Fixpoint store_map_members {S} (cur : gmap string string)
    (members : list (string * value)) : D S (gmap string string) :=
  match members with
  | [] => ret cur
  | (key, v) :: members' =>
      bind (store_string "" v) (λ elem,
      store_map_members (<[key := elem]> cur) members')
  end.

Definition store_map {S} (cur : option (gmap string string)) (v : value)
  : D S (option (gmap string string)) :=
  match v with
  | JNull => ret None
  | JObject members =>
      bind (store_map_members (default ∅ cur) members) (λ m, ret (Some m))
  | _ => typeError cur v "map[string]string"
  end.

(** The end of [Unmarshal] and of [Decode]: the target, or the error. *)
Definition finish {S A} (r : dres S A) : A + error :=
  match r with
  | Stored a st =>
      match savedError st with
      | None => inl a
      | Some e => inr e
      end
  | Aborted e => inr e
  end.

(** [json.NewDecoder(body).Decode(target)] for a target that holds [zero]
    and is stored by [store]. *)
Definition Decode {S A} (store : A → value → D S A) (zero : A) (body : string)
  : A + error :=
  match readValue body with
  | inl v => finish (store zero v start)
  | inr e => inr e
  end.

(** The bytes [json.Marshal] writes for a string read back as the string
    they spell: ill-formed UTF-8 is replaced by U+FFFD. *)
Fixpoint coerceUTF8 (n : nat) (s : string) : string :=
  match n, s with
  | S n, String c s' =>
      if byte c <? 128 then String c (coerceUTF8 n s')
      else
        match wellFormedTail c s' with
        | Some (tail, rest) => String c tail +:+ coerceUTF8 n rest
        | None => EncodeRune RuneError +:+ coerceUTF8 n s'
        end
  | _, _ => EmptyString
  end.

Definition marshalString (s : string) : value :=
  JString (coerceUTF8 (String.length s) s).

End json.

(** ** The package *)

Section Package.

Context `{env : Env}.

Import json.

Definition store_Time {S} (cur : Time) (v : value) : D S Time :=
  match v with
  | JNull => ret cur
  | JString s =>
      match parseRFC3339 s with
      | Some t => ret t
      | None => abort (UnmarshalerError "the string is not an RFC 3339 time")
      end
  | _ => abort (UnmarshalerError "the value is not a JSON string")
  end.

Definition store_float64 {S} (cur : float64) (v : value) : D S float64 :=
  match v with
  | JNumber lit =>
      match ParseFloat lit with
      | Some f => ret f
      | None =>
          bind (saveError (UnmarshalTypeError ("number " +:+ lit) "float64"))
            (λ _, ret cur)
      end
  | JNull => ret cur
  | _ => typeError cur v "float64"
  end.

(** ** crypto.go: the data *)

(** [Crypto] is a single LM crypto asset. *)
Record Crypto := mkCrypto {
  Crypto_ID : option Z;                  (* *int,     json "id" *)
  Crypto_ZaboAccountID : option Z;       (* *int,     json "zabo_account_id" *)
  Crypto_Source : string;                (*           json "source" *)
  Crypto_Name : string;                  (*           json "name" *)
  Crypto_DisplayName : option string;    (* *string,  json "display_name" *)
  Crypto_Balance : string;               (*           json "balance" *)
  Crypto_BalanceAsOf : Time;             (*           json "balance_as_of" *)
  Crypto_Currency : string;              (*           json "currency" *)
  Crypto_Status : string;                (*           json "status" *)
  Crypto_InstitutionName : option string;(* *string,  json "institution_name" *)
  Crypto_CreatedAt : Time;               (*           json "created_at" *)
  Crypto_ToBase : option float64         (* *float64, json "to_base" *)
}.

(** [CryptoResponse] is a response to a crypto lookup. *)
Record CryptoResponse := mkCryptoResponse {
  CryptoResponse_Crypto : option (list (option Crypto))   (* []*Crypto, json "crypto" *)
}.

(** [UpdateCrypto]: the fields that can be updated for a manual crypto
    asset; every field is a [*string] with [omitempty] and no validate
    tag. *)
Record UpdateCrypto := mkUpdateCrypto {
  UpdateCrypto_Name : option string;
  UpdateCrypto_DisplayName : option string;
  UpdateCrypto_InstitutionName : option string;
  UpdateCrypto_Balance : option string;
  UpdateCrypto_Currency : option string
}.

Definition zeroCrypto : Crypto :=
  mkCrypto None None "" "" None "" zeroTime "" "" None zeroTime None.

Definition zeroCryptoResponse : CryptoResponse := mkCryptoResponse None.

Definition fields_Crypto : list string :=
  ["id"; "zabo_account_id"; "source"; "name"; "display_name"; "balance";
   "balance_as_of"; "currency"; "status"; "institution_name"; "created_at";
   "to_base"].

Definition storeField_Crypto (name : string) (c : Crypto) (v : value)
  : D (option Crypto) Crypto :=
  let '(mkCrypto id zabo source nm dname bal asof cur status inst created tobase) := c in
  if String.eqb name "id" then
    bind (store_ptr (store_int "int") 0 id v) (λ x,
    ret (mkCrypto x zabo source nm dname bal asof cur status inst created tobase))
  else if String.eqb name "zabo_account_id" then
    bind (store_ptr (store_int "int") 0 zabo v) (λ x,
    ret (mkCrypto id x source nm dname bal asof cur status inst created tobase))
  else if String.eqb name "source" then
    bind (store_string source v) (λ x,
    ret (mkCrypto id zabo x nm dname bal asof cur status inst created tobase))
  else if String.eqb name "name" then
    bind (store_string nm v) (λ x,
    ret (mkCrypto id zabo source x dname bal asof cur status inst created tobase))
  else if String.eqb name "display_name" then
    bind (store_ptr store_string "" dname v) (λ x,
    ret (mkCrypto id zabo source nm x bal asof cur status inst created tobase))
  else if String.eqb name "balance" then
    bind (store_string bal v) (λ x,
    ret (mkCrypto id zabo source nm dname x asof cur status inst created tobase))
  else if String.eqb name "balance_as_of" then
    bind (store_Time asof v) (λ x,
    ret (mkCrypto id zabo source nm dname bal x cur status inst created tobase))
  else if String.eqb name "currency" then
    bind (store_string cur v) (λ x,
    ret (mkCrypto id zabo source nm dname bal asof x status inst created tobase))
  else if String.eqb name "status" then
    bind (store_string status v) (λ x,
    ret (mkCrypto id zabo source nm dname bal asof cur x inst created tobase))
  else if String.eqb name "institution_name" then
    bind (store_ptr store_string "" inst v) (λ x,
    ret (mkCrypto id zabo source nm dname bal asof cur status x created tobase))
  else if String.eqb name "created_at" then
    bind (store_Time created v) (λ x,
    ret (mkCrypto id zabo source nm dname bal asof cur status inst x tobase))
  else if String.eqb name "to_base" then
    bind (store_ptr store_float64 zeroFloat tobase v) (λ x,
    ret (mkCrypto id zabo source nm dname bal asof cur status inst created x))
  else ret c.

Definition store_Crypto : Crypto → value → D (option Crypto) Crypto :=
  store_struct "lunchmoney.Crypto" fields_Crypto storeField_Crypto.

Definition storeField_CryptoResponse (name : string) (r : CryptoResponse)
    (v : value) : D (option Crypto) CryptoResponse :=
  if String.eqb name "crypto" then
    bind (store_slice (store_ptr store_Crypto zeroCrypto) None "[]*lunchmoney.Crypto"
            (CryptoResponse_Crypto r) v) (λ x,
    ret (mkCryptoResponse x))
  else ret r.

Definition store_CryptoResponse
  : CryptoResponse → value → D (option Crypto) CryptoResponse :=
  store_struct "lunchmoney.CryptoResponse" ["crypto"] storeField_CryptoResponse.

(** ** The transactions file: the data *)

(** [Transaction] is a single LM transaction. *)
Record Transaction := mkTransaction {
  Transaction_ID : Z;                 (* int64, json "id" *)
  Transaction_Date : string;          (* json "date", validate "omitempty,datetime=2006-01-02" *)
  Transaction_Payee : string;         (* json "payee" *)
  Transaction_Amount : string;        (* json "amount" *)
  Transaction_Currency : string;      (* json "currency" *)
  Transaction_Notes : string;         (* json "notes" *)
  Transaction_CategoryID : Z;         (* json "category_id" *)
  Transaction_RecurringID : Z;        (* json "recurring_id" *)
  Transaction_AssetID : Z;            (* json "asset_id" *)
  Transaction_PlaidAccountID : Z;     (* json "plaid_account_id" *)
  Transaction_Status : string;        (* json "status" *)
  Transaction_IsGroup : bool;         (* json "is_group" *)
  Transaction_GroupID : Z;            (* json "group_id" *)
  Transaction_ParentID : Z;           (* json "parent_id" *)
  Transaction_ExternalID : Z          (* json "external_id" *)
}.

(** [TransactionsResponse] is the response to a request for transactions. *)
Record TransactionsResponse := mkTransactionsResponse {
  TransactionsResponse_Transactions : option (list (option Transaction))
}.

(** [TransactionFilters] are options to pass into the request for
    transactions. No field has the [omitempty] or the [string] option in
    its json tag. *)
Record TransactionFilters := mkTransactionFilters {
  TagID : Z;                (* int64, json "tag_id" *)
  RecurringID : Z;          (* int64, json "recurring_id" *)
  PlaidAccountID : Z;       (* int64, json "plaid_account_id" *)
  CategoryID : Z;           (* int64, json "category_id" *)
  AssetID : Z;              (* int64, json "asset_id" *)
  Offset : Z;               (* int64, json "offset" *)
  Limit : Z;                (* int64, json "limit" *)
  StartDate : string;       (* json "start_date", validate "omitempty,datetime=2006-01-02" *)
  EndDate : string;         (* json "end_date", validate "omitempty,datetime=2006-01-02" *)
  DebitAsNegative : bool    (* json "debit_as_negative" *)
}.

(** [UpdateTransaction] is the transaction to update. *)
Record UpdateTransaction := mkUpdateTransaction {
  UpdateTransaction_Date : option string;
      (* json "date,omitempty", validate "omitnil,datetime=2006-01-02" *)
  UpdateTransaction_CategoryID : option Z;
  UpdateTransaction_Payee : option string;
  UpdateTransaction_Currency : option string;
  UpdateTransaction_AssetID : option Z;
  UpdateTransaction_RecurringID : option Z;
  UpdateTransaction_Notes : option string;
  UpdateTransaction_Status : option string;
      (* json "status,omitempty", validate "omitnil,oneof=cleared uncleared" *)
  UpdateTransaction_ExternalID : option string
}.

(** [UpdateRequest] is the request to update a transaction. *)
Record UpdateRequest := mkUpdateRequest {
  UpdateRequest_Transaction : option UpdateTransaction
}.

(** [UpdateTransactionResp] is the response to updating a transaction. *)
Record UpdateTransactionResp := mkUpdateTransactionResp {
  Updated : bool;               (* json "updated" *)
  Split : option (list Z)       (* []int, json "split" *)
}.

Definition zeroTransaction : Transaction :=
  mkTransaction 0 "" "" "" "" "" 0 0 0 0 "" false 0 0 0.

Definition zeroTransactionsResponse : TransactionsResponse :=
  mkTransactionsResponse None.

Definition zeroTransactionFilters : TransactionFilters :=
  mkTransactionFilters 0 0 0 0 0 0 0 "" "" false.

Definition zeroUpdateTransaction : UpdateTransaction :=
  mkUpdateTransaction None None None None None None None None None.

Definition zeroUpdateCrypto : UpdateCrypto :=
  mkUpdateCrypto None None None None None.

Definition zeroUpdateTransactionResp : UpdateTransactionResp :=
  mkUpdateTransactionResp false None.

Definition fields_Transaction : list string :=
  ["id"; "date"; "payee"; "amount"; "currency"; "notes"; "category_id";
   "recurring_id"; "asset_id"; "plaid_account_id"; "status"; "is_group";
   "group_id"; "parent_id"; "external_id"].

Definition storeField_Transaction (name : string) (t : Transaction) (v : value)
  : D (option Transaction) Transaction :=
  let '(mkTransaction id date payee amount cur notes cat rec asset plaid status
          isgroup group parent ext) := t in
  if String.eqb name "id" then
    bind (store_int "int64" id v) (λ x,
    ret (mkTransaction x date payee amount cur notes cat rec
           asset plaid status isgroup group parent ext))
  else if String.eqb name "date" then
    bind (store_string date v) (λ x,
    ret (mkTransaction id x payee amount cur notes cat rec
           asset plaid status isgroup group parent ext))
  else if String.eqb name "payee" then
    bind (store_string payee v) (λ x,
    ret (mkTransaction id date x amount cur notes cat rec
           asset plaid status isgroup group parent ext))
  else if String.eqb name "amount" then
    bind (store_string amount v) (λ x,
    ret (mkTransaction id date payee x cur notes cat rec
           asset plaid status isgroup group parent ext))
  else if String.eqb name "currency" then
    bind (store_string cur v) (λ x,
    ret (mkTransaction id date payee amount x notes cat rec
           asset plaid status isgroup group parent ext))
  else if String.eqb name "notes" then
    bind (store_string notes v) (λ x,
    ret (mkTransaction id date payee amount cur x cat rec
           asset plaid status isgroup group parent ext))
  else if String.eqb name "category_id" then
    bind (store_int "int64" cat v) (λ x,
    ret (mkTransaction id date payee amount cur notes x rec
           asset plaid status isgroup group parent ext))
  else if String.eqb name "recurring_id" then
    bind (store_int "int64" rec v) (λ x,
    ret (mkTransaction id date payee amount cur notes cat x
           asset plaid status isgroup group parent ext))
  else if String.eqb name "asset_id" then
    bind (store_int "int64" asset v) (λ x,
    ret (mkTransaction id date payee amount cur notes cat rec
           x plaid status isgroup group parent ext))
  else if String.eqb name "plaid_account_id" then
    bind (store_int "int64" plaid v) (λ x,
    ret (mkTransaction id date payee amount cur notes cat rec
           asset x status isgroup group parent ext))
  else if String.eqb name "status" then
    bind (store_string status v) (λ x,
    ret (mkTransaction id date payee amount cur notes cat rec
           asset plaid x isgroup group parent ext))
  else if String.eqb name "is_group" then
    bind (store_bool isgroup v) (λ x,
    ret (mkTransaction id date payee amount cur notes cat rec
           asset plaid status x group parent ext))
  else if String.eqb name "group_id" then
    bind (store_int "int64" group v) (λ x,
    ret (mkTransaction id date payee amount cur notes cat rec
           asset plaid status isgroup x parent ext))
  else if String.eqb name "parent_id" then
    bind (store_int "int64" parent v) (λ x,
    ret (mkTransaction id date payee amount cur notes cat rec
           asset plaid status isgroup group x ext))
  else if String.eqb name "external_id" then
    bind (store_int "int64" ext v) (λ x,
    ret (mkTransaction id date payee amount cur notes cat rec
           asset plaid status isgroup group parent x))
  else ret t.

Definition store_Transaction
  : Transaction → value → D (option Transaction) Transaction :=
  store_struct "lunchmoney.Transaction" fields_Transaction storeField_Transaction.

Definition storeField_TransactionsResponse (name : string)
    (r : TransactionsResponse) (v : value)
  : D (option Transaction) TransactionsResponse :=
  if String.eqb name "transactions" then
    bind (store_slice (store_ptr store_Transaction zeroTransaction) None
            "[]*lunchmoney.Transaction" (TransactionsResponse_Transactions r) v) (λ x,
    ret (mkTransactionsResponse x))
  else ret r.

Definition store_TransactionsResponse
  : TransactionsResponse → value → D (option Transaction) TransactionsResponse :=
  store_struct "lunchmoney.TransactionsResponse" ["transactions"]
    storeField_TransactionsResponse.

Definition storeField_UpdateTransactionResp (name : string)
    (r : UpdateTransactionResp) (v : value) : D Z UpdateTransactionResp :=
  if String.eqb name "updated" then
    bind (store_bool (Updated r) v) (λ x, ret (mkUpdateTransactionResp x (Split r)))
  else if String.eqb name "split" then
    bind (store_slice (store_int "int") 0 "[]int" (Split r) v) (λ x,
    ret (mkUpdateTransactionResp (Updated r) x))
  else ret r.

Definition store_UpdateTransactionResp
  : UpdateTransactionResp → value → D Z UpdateTransactionResp :=
  store_struct "lunchmoney.UpdateTransactionResp" ["updated"; "split"]
    storeField_UpdateTransactionResp.

(** ** [validate.Struct] on the structs of the package

    [Struct] answers [InvalidValidationError] for a nil pointer. For a
    struct it checks the fields that carry a validate tag and reports
    every failure; a field without a tag is not looked into, a slice
    without the [dive] tag in particular, so the elements of a list
    response are never checked. *)

Definition rules_TransactionFilters (f : TransactionFilters) : list FieldError :=
  (validator.omitempty_datetime "TransactionFilters" "StartDate" (StartDate f) ++
   validator.omitempty_datetime "TransactionFilters" "EndDate" (EndDate f))%list.

Definition rules_Transaction (t : Transaction) : list FieldError :=
  validator.omitempty_datetime "Transaction" "Date" (Transaction_Date t).

Definition rules_UpdateTransaction (ut : UpdateTransaction) : list FieldError :=
  (validator.omitnil_datetime "UpdateTransaction" "Date" (UpdateTransaction_Date ut) ++
   validator.omitnil_oneof "UpdateTransaction" "Status" "cleared uncleared"
     (UpdateTransaction_Status ut))%list.

Definition rules_TransactionsResponse (r : TransactionsResponse) : list FieldError := [].

Definition rules_CryptoResponse (r : CryptoResponse) : list FieldError := [].

Definition rules_UpdateCrypto (u : UpdateCrypto) : list FieldError := [].

(** [Struct(p)] for a pointer [p] to a struct with the rules [rules]. *)
Definition Struct {A} (ty : string) (rules : A → list FieldError)
    (p : option A) : option error :=
  match p with
  | None => Some (InvalidValidationError ("*lunchmoney." +:+ ty))
  | Some s => validator.report (rules s)
  end.

(** ** [TransactionFilters.ToMap] *)

(** [json.Marshal(r)] for a [*TransactionFilters] that is not nil: one
    member per field, in the order of the declaration, numbers in base 10.
    The bytes are represented by the JSON value they spell; [Marshal]
    has no error for this struct. *)
Definition Marshal_TransactionFilters (r : TransactionFilters) : value + error :=
  inl (JObject
    [("tag_id", JNumber (Itoa (TagID r)));
     ("recurring_id", JNumber (Itoa (RecurringID r)));
     ("plaid_account_id", JNumber (Itoa (PlaidAccountID r)));
     ("category_id", JNumber (Itoa (CategoryID r)));
     ("asset_id", JNumber (Itoa (AssetID r)));
     ("offset", JNumber (Itoa (Offset r)));
     ("limit", JNumber (Itoa (Limit r)));
     ("start_date", marshalString (StartDate r));
     ("end_date", marshalString (EndDate r));
     ("debit_as_negative", JBool (DebitAsNegative r))]).

(** [json.Unmarshal(b, &ret)] for [ret] of type [map[string]string]. *)
Definition Unmarshal_map (b : value) (ret : option (gmap string string))
  : option (gmap string string) + error :=
  finish (store_map ret b (start (S := unit))).

(** [ToMap] converts the filters to a string map to be sent with the
    request as GET parameters. *)
Definition ToMap (r : TransactionFilters)
  : option (gmap string string) * option error :=
  let ret : option (gmap string string) := Some ∅ in
  match Marshal_TransactionFilters r with
  | inr err => (None, Some err)
  | inl b =>
      match Unmarshal_map b ret with
      | inr err => (None, Some err)
      | inl ret => (ret, None)
      end
  end.

(** ** The client and the trace of a call *)

(** What [Client.Put] is given as the body of the request. *)
Inductive PutBody :=
  | PutUpdateCrypto (crypto : option UpdateCrypto)
  | PutUpdateRequest (req : UpdateRequest).

(** The transport of the client, [Client.Get] and [Client.Put]: the body
    of the response, as the bytes its reader yields, or an error. *)
Record Client := {
  Get : Ctx → string → option (gmap string string) → string + error;
  Put : Ctx → string → PutBody → string + error
}.

Inductive Event :=
  | EvValidate (ty : string)
  | EvGet (ctx : Ctx) (path : string) (options : option (gmap string string))
  | EvPut (ctx : Ctx) (path : string) (body : PutBody).

Definition isHTTP (e : Event) : bool :=
  match e with
  | EvValidate _ => false
  | EvGet _ _ _ | EvPut _ _ _ => true
  end.


(** A run: its result and the calls it made, in order. *)
Definition IO (A : Type) : Type := A * list Event.

#[export] Instance IO_ret : MRet IO := λ A a, (a, []).

#[export] Instance IO_bind : MBind IO := λ A B f m,
  let '(a, t) := m in
  let '(b, t') := f a in
  (b, (t ++ t')%list).

Definition result {A} (m : IO A) : A := fst m.

Definition trace {A} (m : IO A) : list Event := snd m.

Definition do_Get (c : Client) (ctx : Ctx) (path : string)
    (options : option (gmap string string)) : IO (string + error) :=
  (Get c ctx path options, [EvGet ctx path options]).

Definition do_Put (c : Client) (ctx : Ctx) (path : string) (body : PutBody)
  : IO (string + error) :=
  (Put c ctx path body, [EvPut ctx path body]).

Definition validate_Struct {A} (ty : string) (rules : A → list FieldError)
    (p : option A) : IO (option error) :=
  (Struct ty rules p, [EvValidate ty]).

(** [fmt.Errorf(pre + "%d" + post + "%w", n, err)]. *)
Definition Errorf_d_w (pre : string) (n : Z) (post : string) (err : error) : error :=
  wrapError (pre +:+ Itoa n +:+ post +:+ Error err) err.

(** [fmt.Sprintf(pre + "%d", n)]. *)
Definition Sprintf_d (pre : string) (n : Z) : string := pre +:+ Itoa n.

(** ** crypto.go: the methods *)

(** [GetCrypto] retrieves all crypto assets from the Lunch Money API. *)
Definition GetCrypto (c : Client) (ctx : Ctx)
  : IO (option (list (option Crypto)) * option error) :=
  let options : option (gmap string string) := Some ∅ in
  r ← do_Get c ctx "/v1/crypto" options;
  match r with
  | inr err => mret (None, Some (Errorf_w "get crypto: " err))
  | inl body =>
      match Decode store_CryptoResponse zeroCryptoResponse body with
      | inr err => mret (None, Some (Errorf_w "decode response: " err))
      | inl resp =>
          verr ← validate_Struct "CryptoResponse" rules_CryptoResponse (Some resp);
          match verr with
          | Some err => mret (None, Some err)
          | None => mret (CryptoResponse_Crypto resp, None)
          end
      end
  end.

(** [UpdateManualCrypto] modifies an existing manual crypto asset. *)
Definition UpdateManualCrypto (c : Client) (ctx : Ctx) (id : Z)
    (crypto : option UpdateCrypto) : IO (option Crypto * option error) :=
  verr ← validate_Struct "UpdateCrypto" rules_UpdateCrypto crypto;
  match verr with
  | Some err => mret (None, Some err)
  | None =>
      r ← do_Put c ctx (Sprintf_d "/v1/crypto/manual/" id) (PutUpdateCrypto crypto);
      match r with
      | inr err => mret (None, Some (Errorf_d_w "put crypto " id ": " err))
      | inl body =>
          match Decode store_Crypto zeroCrypto body with
          | inr err => mret (None, Some (Errorf_w "decode response: " err))
          | inl resp => mret (Some resp, None)
          end
      end
  end.

(** ** The transactions file: the methods *)

(** [GetTransactions] gets all transactions filtered by the filters. *)
Definition GetTransactions (c : Client) (ctx : Ctx)
    (filters : option TransactionFilters)
  : IO (option (list (option Transaction)) * option error) :=
  let options : option (gmap string string) := Some ∅ in
  let send (options : option (gmap string string)) :=
    r ← do_Get c ctx "/v1/transactions" options;
    match r with
    | inr err => mret (None, Some (Errorf_w "get transactions: " err))
    | inl body =>
        match Decode store_TransactionsResponse zeroTransactionsResponse body with
        | inr err => mret (None, Some (Errorf_w "decode response: " err))
        | inl resp =>
            verr ← validate_Struct "TransactionsResponse" rules_TransactionsResponse
                     (Some resp);
            match verr with
            | Some err => mret (None, Some err)
            | None => mret (TransactionsResponse_Transactions resp, None)
            end
        end
    end in
  match filters with
  | Some f =>
      verr ← validate_Struct "TransactionFilters" rules_TransactionFilters filters;
      match verr with
      | Some err => mret (None, Some err)
      | None =>
          match ToMap f with
          | (_, Some err) => mret (None, Some (Errorf_w "convert filters to map: " err))
          | (maps, None) => send maps
          end
      end
  | None => send options
  end.

(** [GetTransaction] gets a transaction by id. *)
Definition GetTransaction (c : Client) (ctx : Ctx) (id : Z)
    (filters : option TransactionFilters) : IO (option Transaction * option error) :=
  let options : option (gmap string string) := Some ∅ in
  let send (options : option (gmap string string)) :=
    r ← do_Get c ctx (Sprintf_d "/v1/transactions/" id) options;
    match r with
    | inr err => mret (None, Some (Errorf_d_w "get transaction " id ": " err))
    | inl body =>
        match Decode store_Transaction zeroTransaction body with
        | inr err => mret (None, Some (Errorf_w "decode response: " err))
        | inl resp =>
            verr ← validate_Struct "Transaction" rules_Transaction (Some resp);
            match verr with
            | Some err => mret (None, Some err)
            | None => mret (Some resp, None)
            end
        end
    end in
  match filters with
  | Some f =>
      verr ← validate_Struct "TransactionFilters" rules_TransactionFilters filters;
      match verr with
      | Some err => mret (None, Some err)
      | None =>
          match ToMap f with
          | (_, Some err) => mret (None, Some err)
          | (maps, None) => send maps
          end
      end
  | None => send options
  end.

(** [Client.UpdateTransaction], named with its receiver because the struct
    has the plain name. The validator is built with
    [WithRequiredStructEnabled], which changes the tag [required] on
    fields of struct type only, and no field of the package has that
    tag. *)
Definition Client_UpdateTransaction (c : Client) (ctx : Ctx) (id : Z)
    (ut : option UpdateTransaction) : IO (option UpdateTransactionResp * option error) :=
  verr ← validate_Struct "UpdateTransaction" rules_UpdateTransaction ut;
  match verr with
  | Some err => mret (None, Some err)
  | None =>
      r ← do_Put c ctx (Sprintf_d "/v1/transactions/" id)
            (PutUpdateRequest (mkUpdateRequest ut));
      match r with
      | inr err => mret (None, Some (Errorf_d_w "update transaction " id ": " err))
      | inl body =>
          match Decode store_UpdateTransactionResp zeroUpdateTransactionResp body with
          | inr err => mret (None, Some (Errorf_w "decode response: " err))
          | inl resp => mret (Some resp, None)
          end
      end
  end.

End Package.

(** ** [ParseCurrency] and [Crypto.ParsedAmount]

    [Crypto.ParsedAmount] is in crypto.go; [ParseCurrency], which it calls,
    is in a file of the package that is not part of this development. *)

Module Currency.

(** The two decisions section 4.1 of the specification leaves to the
    implementer. *)
Inductive ExtraDigits := RejectExtraDigits | RoundHalfAwayFromZero.

Inductive UnknownCode := ZeroFractionFallback | FailExplicitly.

Record Policy := {
  extraDigits : ExtraDigits;
  unknownCode : UnknownCode
}.

(** A money value: magnitude in minor units and currency code. *)
Record MonetaryAmount := {
  minorUnits : Z;
  currencyCode : string
}.

Section Parse.

(** The reference currency table: the fraction digits of the codes it
    lists. *)
Variable fractionDigits : string → option nat.

Variable policy : Policy.

(** A decimal numeral: optional sign, digits, optional single decimal
    point, optional fractional digits. The answer is the sign, the
    integer digits and the fractional digits. *)
Definition parseDecimal (amountText : string) : option (bool * string * string) :=
  let '(neg, s) :=
    match amountText with
    | String "-" r => (true, r)
    | String "+" r => (false, r)
    | _ => (false, amountText)
    end in
  let '(int, r) := json.digits s in
  if String.eqb int "" then None
  else
    match r with
    | EmptyString => Some (neg, int, "")
    | String "." r' =>
        let '(frac, r'') := json.digits r' in
        if String.eqb r'' "" then Some (neg, int, frac) else None
    | _ => None
    end.

Definition digitsValue (s : string) : Z := default 0 (json.allDigits 0 s).

(** The magnitude of [int.frac] in units of [10^-fd]; digits beyond
    [fd] are rejected or rounded half away from zero. *)
Definition scale (fd : nat) (int frac : string) : option Z :=
  let n := String.length frac in
  if (n <=? fd)%nat then
    Some (digitsValue int * 10 ^ Z.of_nat fd + digitsValue frac * 10 ^ Z.of_nat (fd - n))
  else
    match extraDigits policy with
    | RejectExtraDigits => None
    | RoundHalfAwayFromZero =>
        let kept := digitsValue int * 10 ^ Z.of_nat fd
                    + digitsValue (substring 0 fd frac) in
        let next := default 0 (digit_val <$> String.get fd frac) in
        Some (if 5 <=? next then kept + 1 else kept)
    end.

(** Modelled from the spec: [ParseCurrency] (the specification's
    [ParseAmount], section 4.1), which is not in the source files at
    hand. The amount must be a decimal numeral, else
    [ErrMalformedAmount]; the currency must be known, with a code
    missing from the table handled as the policy says, else
    [ErrUnknownCurrency]; the value is the amount scaled to minor
    units. An amount with too many fractional digits that the policy
    rejects is malformed. *)
Definition ParseCurrency (amountText currencyCode_ : string)
  : option MonetaryAmount * option error :=
  match parseDecimal amountText with
  | None => (None, Some ErrMalformedAmount)
  | Some (neg, int, frac) =>
      match
        match fractionDigits currencyCode_ with
        | Some fd => Some fd
        | None =>
            match unknownCode policy with
            | ZeroFractionFallback => Some O
            | FailExplicitly => None
            end
        end
      with
      | None => (None, Some ErrUnknownCurrency)
      | Some fd =>
          match scale fd int frac with
          | None => (None, Some ErrMalformedAmount)
          | Some m =>
              (Some {| minorUnits := if neg then - m else m;
                       currencyCode := currencyCode_ |}, None)
          end
      end
  end.

(** [ParsedAmount] converts the crypto asset's balance and currency
    into a money value. *)
Definition Crypto_ParsedAmount `{env : Env} (c : Crypto)
  : option MonetaryAmount * option error :=
  ParseCurrency (Crypto_Balance c) (Crypto_Currency c).

End Parse.

(** The one policy under which a ticker that the table does not list
    can carry fractional digits. *)
Definition lenient : Policy :=
  {| extraDigits := RoundHalfAwayFromZero; unknownCode := ZeroFractionFallback |}.

(** A table for the examples: a few ISO 4217 codes. *)
Definition isoSample (code : string) : option nat :=
  if String.eqb code "USD" then Some 2%nat
  else if String.eqb code "EUR" then Some 2%nat
  else if String.eqb code "JPY" then Some 0%nat
  else if String.eqb code "BHD" then Some 3%nat
  else None.

End Currency.

(** ** Stand-ins for running the package

    In the manner of the test servers of crypto_test.go: an environment
    that keeps timestamps and floats as their text, and clients that answer
    every request alike. *)

Definition isTimeOfDay (s : string) : bool :=
  match s with
  | String h1 (String h2 (String c1 (String m1 (String m2 (String c2 (String s1 (String s2 rest))))))) =>
      is_digit h1 && is_digit h2 && Ascii.eqb c1 ":" && is_digit m1 && is_digit m2 &&
      Ascii.eqb c2 ":" && is_digit s1 && is_digit s2 &&
      (digit_val h1 * 10 + digit_val h2 <? 24) &&
      (digit_val m1 * 10 + digit_val m2 <? 60) &&
      (digit_val s1 * 10 + digit_val s2 <? 60) &&
      (let rest :=
         match rest with
         | String "." f =>
             let '(d, r) := json.digits f in if String.eqb d "" then "?" else r
         | _ => rest
         end in
       match rest with
       | String "Z" EmptyString => true
       | String sg (String a1 (String a2 (String c3 (String b1 (String b2 EmptyString))))) =>
           (Ascii.eqb sg "+" || Ascii.eqb sg "-") && is_digit a1 && is_digit a2 &&
           Ascii.eqb c3 ":" && is_digit b1 && is_digit b2 &&
           (digit_val a1 * 10 + digit_val a2 <? 24) &&
           (digit_val b1 * 10 + digit_val b2 <? 60)
       | _ => false
       end)
  | _ => false
  end.

Definition isRFC3339 (s : string) : bool :=
  bool_decide (is_Some (time.Parse_2006_01_02 (substring 0 10 s))) &&
  match String.get 10 s with
  | Some c => Ascii.eqb c "T"
  | None => false
  end &&
  isTimeOfDay (substring 11 (String.length s - 11) s).

Definition FieldError_Error (fe : FieldError) : string :=
  "Key: '" +:+ fe_Namespace fe +:+ "' Error:Field validation for '" +:+
  fe_Field fe +:+ "' failed on the '" +:+ fe_Tag fe +:+ "' tag".

Fixpoint join_lines (l : list string) : string :=
  match l with
  | [] => ""
  | [x] => x
  | x :: l' => x +:+ String (chr 10) (join_lines l')
  end.

Definition hexDigit (n : Z) : ascii := chr (if n <? 10 then 48 + n else 87 + n).

(** [quoteChar] of encoding/json: the byte between single quotes, written
    as [strconv.Quote] writes the rune of that number. *)
Definition quoteChar (c : ascii) : string :=
  let b := byte c in
  let hex2 := String (hexDigit (b / 16)) (String (hexDigit (b mod 16)) "") in
  if b =? 39 then "'\''"
  else if b =? 34 then String "'" (String c "'")
  else
    "'" +:+
    (if b =? 92 then "\\"
     else if b =? 7 then "\a" else if b =? 8 then "\b" else if b =? 12 then "\f"
     else if b =? 10 then "\n" else if b =? 13 then "\r" else if b =? 9 then "\t"
     else if b =? 11 then "\v"
     else if (b <? 32) || (b =? 127) then "\x" +:+ hex2
     else if b <? 127 then String c ""
     else if (b <=? 160) || (b =? 173) then "\u00" +:+ hex2
     else json.EncodeRune b) +:+
    "'".

(** Texts for running the examples: those of the libraries in the form
    they have where no offset and no field of a struct is named, and for
    an error of [UnmarshalJSON] its description. *)
Definition sampleText (e : error) : string :=
  match e with
  | TransportError msg => msg
  | io_EOF => "EOF"
  | io_ErrUnexpectedEOF => "unexpected EOF"
  | SyntaxError c context => "invalid character " +:+ quoteChar c +:+ " " +:+ context
  | UnmarshalTypeError v t =>
      "json: cannot unmarshal " +:+ v +:+ " into Go value of type " +:+ t
  | UnmarshalerError what => what
  | InvalidValidationError t => "validator: (nil " +:+ t +:+ ")"
  | ValidationErrors errs => join_lines (FieldError_Error <$> errs)
  | ErrMalformedAmount => "malformed amount"
  | ErrUnknownCurrency => "unknown currency"
  | wrapError msg _ => msg
  end.

Definition textEnv : Env := {|
  Ctx := unit;
  Time := string;
  zeroTime := "0001-01-01T00:00:00Z";
  parseRFC3339 := λ s, if isRFC3339 s then Some s else None;
  float64 := string;
  zeroFloat := "0";
  ParseFloat := λ lit, Some lit;
  errorText := sampleText
|}.

(** A client whose transport answers every request with [answer]. *)
Definition constClient `{env : Env} (answer : string + error) : Client :=
  {| Get := λ _ _ _, answer; Put := λ _ _ _, answer |}.

(** What the transport answered to a recorded call. *)
Definition answered `{env : Env} (c : Client) (e : Event) : option (string + error) :=
  match e with
  | EvValidate _ => None
  | EvGet ctx path options => Some (Get c ctx path options)
  | EvPut ctx path body => Some (Put c ctx path body)
  end.

(** The transport was called in the run and answered [a]. *)
Definition transport_answered `{env : Env} (c : Client) (t : list Event)
    (a : string + error) : Prop :=
  ∃ e, In e t ∧ answered c e = Some a.

Definition httpCalls `{env : Env} (t : list Event) : list Event := filter isHTTP t.


(** Answers of the test servers of crypto_test.go, and a response that
    names both identifiers of a crypto asset. *)

Definition unauthorized : error := TransportError "HTTP 401: Unauthorized".

Definition truncated : string := (jsonText "{'invalid': 'json'").

Definition bothIdentifiers : string :=
  (jsonText "{'crypto': [{'id': 152, 'zabo_account_id': 544, 'source': 'manual'}]}").

(** ** Vocabulary of the properties *)

(** The shape YYYY-MM-DD: four digits, two digits and two digits, with
    hyphens between them. *)
Definition is_YYYY_MM_DD (s : string) : bool :=
  match s with
  | String y1 (String y2 (String y3 (String y4 (String h1 (String m1 (String m2
      (String h2 (String d1 (String d2 EmptyString))))))))) =>
      is_digit y1 && is_digit y2 && is_digit y3 && is_digit y4 &&
      Ascii.eqb h1 "-" && is_digit m1 && is_digit m2 &&
      Ascii.eqb h2 "-" && is_digit d1 && is_digit d2
  | _ => false
  end.

(** The run failed with an error that wraps [cause]: no result, and a
    message that is [prefix] followed by the message of [cause]. *)
Definition fails_wrapping `{env : Env} {A} (prefix : string) (cause : error)
    (run : IO (option A * option error)) : Prop :=
  ∃ e, result run = (None, Some e) ∧
       Unwrap e = Some cause ∧
       Error e = prefix +:+ Error cause ∧
       HasPrefix (Error e) prefix = true.

(** The run called the transport once, with [request], and failed with an
    error that wraps [cause] under [prefix]. *)
Definition sends_and_fails `{env : Env} {A} (request : Event) (prefix : string)
    (cause : error) (run : IO (option A * option error)) : Prop :=
  fails_wrapping prefix cause run ∧ httpCalls (trace run) = [request].

(** Read off the trace of a run, whatever its arguments: if a call of the
    transport in it was answered by an error, the run failed with an error
    that wraps it under [prefix], and the call was the only one. *)
Definition wraps_transport_error `{env : Env} {A} (c : Client) (prefix : string)
    (run : IO (option A * option error)) : Prop :=
  ∀ terr, transport_answered c (trace run) (inr terr) →
    fails_wrapping prefix terr run ∧ length (httpCalls (trace run)) = 1%nat.

(** Read off the trace of a run, whatever its arguments: if a call of the
    transport in it was answered by a body that [decode] rejects, the run
    failed with an error that wraps the decoder's under
    ["decode response: "]. *)
Definition wraps_decode_error `{env : Env} {A B} (c : Client)
    (decode : string → B + error) (run : IO (option A * option error)) : Prop :=
  ∀ body derr, transport_answered c (trace run) (inl body) →
    decode body = inr derr →
    fails_wrapping "decode response: " derr run.

(** An identifier as a response may carry it: [null], or a number that
    fits an [int]; and what the decoder makes of it. *)
Definition sentIdentifier (v : json.value) : Prop :=
  v = json.JNull ∨ ∃ lit n, v = json.JNumber lit ∧ json.ParseInt lit = Some n.

Definition identifier (v : json.value) : option Z :=
  match v with
  | json.JNumber lit => json.ParseInt lit
  | _ => None
  end.

(** The value of the last member of an object whose key names the field
    [name] of a struct with the fields [fields]. *)
Fixpoint lastMember (fields : list string) (name : string)
    (members : list (string * json.value)) : option json.value :=
  match members with
  | [] => None
  | (key, v) :: members' =>
      match lastMember fields name members' with
      | Some w => Some w
      | None =>
          if bool_decide (json.lookupField fields key = Some name) then Some v
          else None
      end
  end.

(** The object has exactly one member for a field of [fields], and [v] is
    its value. *)
Definition singleMember (fields : list string)
    (members : list (string * json.value)) (v : json.value) : Prop :=
  ∃ before key after,
    members = (before ++ (key, v) :: after)%list ∧
    is_Some (json.lookupField fields key) ∧
    ∀ k w, In (k, w) (before ++ after)%list → json.lookupField fields k = None.

Definition membersOf (v : json.value) : list (string * json.value) :=
  match v with
  | json.JObject members => members
  | _ => []
  end.

(** The identifier that a response value carries for the field [name] of
    [Crypto]: the number of the last member that names the field. *)
Definition sentAs `{env : Env} (name : string) (v : json.value) : option Z :=
  lastMember fields_Crypto name (membersOf v) ≫= identifier.

(** The entry [x] of a decoded list has the identifiers that the element
    [v] of the response carries; it is nil for [null]. *)
Definition entryOf `{env : Env} (v : json.value) (x : option Crypto) : Prop :=
  match x with
  | None => v = json.JNull
  | Some r =>
      (∃ members, v = json.JObject members) ∧
      Crypto_ID r = sentAs "id" v ∧
      Crypto_ZaboAccountID r = sentAs "zabo_account_id" v
  end.


(** With more fuel than the input has bytes, the three scanners answer,
    and what they leave unread is shorter than what they were given. *)
Definition answers {A} (r : option (json.scan A)) (s : string) : Prop :=
  ∃ a, r = Some a ∧
       ∀ v rest, a = json.Scanned v rest →
                 (String.length rest < String.length s)%nat.

(** ** Vocabulary of the further properties *)

(** Of a record and an error, exactly one is nil. *)
Definition one_is_nil {A} (r : option A * option error) : Prop :=
  match r with
  | (Some _, None) | (None, Some _) => True
  | _ => False
  end.

(** An error comes with a nil list. *)
Definition error_means_nil {A} (r : option A * option error) : Prop :=
  match r with
  | (Some _, Some _) => False
  | _ => True
  end.

(** A date field that the tag [omitempty,datetime=2006-01-02] accepts. *)
Definition dateAccepted (s : string) : bool :=
  String.eqb s "" || validator.isDatetime s.

(** What [time.Parse] checks of a text of the shape YYYY-MM-DD: a month
    from 1 to 12 and a day up to [daysIn]. *)
Definition checkedDate (s : string) : bool :=
  match s with
  | String y1 (String y2 (String y3 (String y4 (String h1 (String m1 (String m2
      (String h2 (String d1 (String d2 EmptyString))))))))) =>
      let year :=
        ((digit_val y1 * 10 + digit_val y2) * 10 + digit_val y3) * 10
        + digit_val y4 in
      let month := digit_val m1 * 10 + digit_val m2 in
      let day := digit_val d1 * 10 + digit_val d2 in
      is_YYYY_MM_DD s &&
      (1 <=? month) && (month <=? 12) &&
      (1 <=? day) && (day <=? time.daysIn month year)
  | _ => false
  end.

(** The Gregorian calendar, as it is defined: a year is a leap year when
    it is a multiple of 4 and not of 100, or a multiple of 400; February
    has 29 days in a leap year, and the months have the lengths of the
    table otherwise. *)
Definition leapYear (y : Z) : Prop := (4 | y) ∧ (¬ (100 | y) ∨ (400 | y)).

Definition commonYearDays (m : Z) : Z :=
  match m with
  | 1 => 31 | 2 => 28 | 3 => 31 | 4 => 30 | 5 => 31 | 6 => 30
  | 7 => 31 | 8 => 31 | 9 => 30 | 10 => 31 | 11 => 30 | 12 => 31
  | _ => 0
  end.

Definition dayOfMonth (y m d : Z) : Prop :=
  1 ≤ d ∧ (d ≤ commonYearDays m ∨ (m = 2 ∧ d = 29 ∧ leapYear y)).

(** A date of the calendar written YYYY-MM-DD: ten bytes, decimal digits
    but for the two hyphens, that spell a day of a month of a year. *)
Definition calendarDate (s : string) : Prop :=
  ∃ y1 y2 y3 y4 m1 m2 d1 d2 : ascii,
    s = String y1 (String y2 (String y3 (String y4 (String "-" (String m1
          (String m2 (String "-" (String d1 (String d2 ""))))))))) ∧
    Forall (λ c, is_digit c = true) [y1; y2; y3; y4; m1; m2; d1; d2] ∧
    dayOfMonth
      (((digit_val y1 * 10 + digit_val y2) * 10 + digit_val y3) * 10 + digit_val y4)
      (digit_val m1 * 10 + digit_val m2)
      (digit_val d1 * 10 + digit_val d2).

(** * Properties *)

Example Parse_ok : time.Parse_2006_01_02 "2021-02-10" = Some (2021, 2, 10).
Proof. reflexivity. Qed.

Example Parse_slashes : time.Parse_2006_01_02 "02/10/2021" = None.
Proof. reflexivity. Qed.

Example Parse_leap :
  time.Parse_2006_01_02 "2024-02-29" = Some (2024, 2, 29) ∧
  time.Parse_2006_01_02 "2023-02-29" = None ∧
  time.Parse_2006_01_02 "2021-13-01" = None ∧
  time.Parse_2006_01_02 "2021-1-01" = None ∧
  time.Parse_2006_01_02 "2021-01-011" = None.
Proof. repeat split; reflexivity. Qed.

Example oneof_fields :
  validator.parseOneOfParam2 "cleared uncleared" = ["cleared"; "uncleared"].
Proof. reflexivity. Qed.

(** *** The scanner never runs out of fuel *)

Lemma skipSpace_length (s : string) :
  (String.length (json.skipSpace s) ≤ String.length s)%nat.
Proof.
  induction s as [|c s IH]; simpl; [lia|].
  destruct (json.isSpace c); simpl; lia.
Qed.

Lemma getu4_length (s rest : string) (r : Z) :
  json.getu4 s = Some (r, rest) →
  String.length s = (6 + String.length rest)%nat.
Proof.
  unfold json.getu4. intros H.
  repeat case_match; simplify_eq; try discriminate.
  destruct (json.hexVal _), (json.hexVal _), (json.hexVal _), (json.hexVal _);
    simpl in H; simplify_eq. reflexivity.
Qed.

Lemma wellFormedTail_length (c : ascii) (s tail rest : string) :
  json.wellFormedTail c s = Some (tail, rest) →
  (String.length rest < String.length s)%nat.
Proof.
  unfold json.wellFormedTail. intros H.
  repeat case_match; simplify_eq; simpl; lia.
Qed.

Lemma scanString_length (n : nat) :
  ∀ acc s x r, json.scanString n acc s = json.Scanned x r →
               (String.length r < String.length s)%nat.
Proof.
  induction n as [|n IH]; intros acc s x r H; simpl in H; [discriminate|].
  destruct s as [|c s']; [discriminate|].
  repeat case_match; simplify_eq; simpl;
    repeat match goal with
    | H : json.getu4 _ = Some _ |- _ => apply getu4_length in H; simpl in H
    | H : json.wellFormedTail _ _ = Some _ |- _ => apply wellFormedTail_length in H
    | H : json.scanString _ _ _ = json.Scanned _ _ |- _ => apply IH in H
    end; simpl in *; lia.
Qed.

Lemma digits_length (s d r : string) :
  json.digits s = (d, r) → (String.length r ≤ String.length s)%nat.
Proof.
  revert d r. induction s as [|c s IH]; intros d r H; simpl in H.
  - simplify_eq. simpl. lia.
  - destruct (is_digit c); [|simplify_eq; simpl; lia].
    destruct (json.digits s) as [d' r'] eqn:E. simplify_eq.
    specialize (IH _ _ eq_refl). simpl. lia.
Qed.

Lemma digits1_length (context s d r : string) :
  json.digits1 context s = json.Scanned d r →
  (String.length r ≤ String.length s)%nat.
Proof.
  unfold json.digits1. intros H. destruct s as [|c s]; [discriminate|].
  destruct (is_digit c); [|discriminate].
  destruct (json.digits (String c s)) as [d' r'] eqn:E. simplify_eq.
  by apply digits_length in E.
Qed.

Lemma scanInt_length (s int r : string) :
  json.scanInt s = json.Scanned int r →
  (String.length r < String.length s)%nat.
Proof.
  unfold json.scanInt. intros H. destruct s as [|c s]; [discriminate|].
  destruct (Ascii.eqb c "0"); [simplify_eq; simpl; lia|].
  destruct (is_digit c); [|discriminate].
  destruct (json.digits s) as [d r'] eqn:E. simplify_eq.
  apply digits_length in E. simpl. lia.
Qed.

Lemma scanFrac_length (s frac r : string) :
  json.scanFrac s = json.Scanned frac r →
  (String.length r ≤ String.length s)%nat.
Proof.
  unfold json.scanFrac. intros H. destruct s as [|c s]; [simplify_eq; lia|].
  destruct (Ascii.eqb c "."); [|simplify_eq; lia].
  destruct (json.digits1 _ s) as [d r'| |] eqn:E; simplify_eq.
  apply digits1_length in E. simpl. lia.
Qed.

Lemma scanExp_length (s exp r : string) :
  json.scanExp s = json.Scanned exp r →
  (String.length r ≤ String.length s)%nat.
Proof.
  unfold json.scanExp. intros H. destruct s as [|e s]; [simplify_eq; lia|].
  destruct (Ascii.eqb e "e" || Ascii.eqb e "E"); [|simplify_eq; lia].
  destruct s as [|sg s'].
  - destruct (json.digits1 _ "") as [d r'| |] eqn:E; simplify_eq.
  - destruct (Ascii.eqb sg "+" || Ascii.eqb sg "-").
    + destruct (json.digits1 _ s') as [d r'| |] eqn:E; simplify_eq.
      apply digits1_length in E. simpl. lia.
    + destruct (json.digits1 _ (String sg s')) as [d r'| |] eqn:E; simplify_eq.
      apply digits1_length in E. simpl in *. lia.
Qed.

Lemma scanNumber_length (s lit r : string) :
  json.scanNumber s = json.Scanned lit r →
  (String.length r < String.length s)%nat.
Proof.
  unfold json.scanNumber. intros H. destruct s as [|c s']; [discriminate|].
  destruct (Ascii.eqb c "-");
    (destruct (json.scanInt _) as [int r1| |] eqn:Ei; try discriminate;
     destruct (json.scanFrac r1) as [frac r2| |] eqn:Ef; try discriminate;
     destruct (json.scanExp r2) as [exp r3| |] eqn:Ee; try discriminate;
     simplify_eq;
     apply scanInt_length in Ei; apply scanFrac_length in Ef;
     apply scanExp_length in Ee; simpl in *; lia).
Qed.

Lemma scanWord_length (name word s r : string) (u : unit) :
  json.scanWord name word s = json.Scanned u r →
  (String.length r ≤ String.length s)%nat.
Proof.
  revert s. induction word as [|w word IH]; intros s H; simpl in H.
  - simplify_eq. lia.
  - destruct s as [|c s]; [discriminate|].
    destruct (Ascii.eqb c w); [|discriminate].
    apply IH in H. simpl. lia.
Qed.

Lemma scanKey_length (s key r : string) :
  json.scanKey s = json.Scanned key r →
  (String.length r < String.length s)%nat.
Proof.
  unfold json.scanKey. intros H.
  pose proof (skipSpace_length s) as Hs.
  destruct (json.skipSpace s) as [|c s1]; [discriminate|].
  destruct (byte c =? 34); [|discriminate].
  destruct (json.scanString _ _ s1) as [k r1| |] eqn:E; try discriminate.
  apply scanString_length in E.
  pose proof (skipSpace_length r1) as Hr.
  destruct (json.skipSpace r1) as [|c' r2]; [discriminate|].
  destruct (Ascii.eqb c' ":"); [|discriminate].
  simplify_eq. simpl in *. lia.
Qed.

Lemma answers_eof {A} (s : string) : answers (A := A) (Some json.ScanEOF) s.
Proof. eexists; split; [reflexivity | discriminate]. Qed.

Lemma answers_error {A} (c : ascii) (m s : string) :
  answers (A := A) (Some (json.ScanError c m)) s.
Proof. eexists; split; [reflexivity | discriminate]. Qed.

Lemma answers_scanned {A} (v : A) (rest s : string) :
  (String.length rest < String.length s)%nat →
  answers (Some (json.Scanned v rest)) s.
Proof. intros H. eexists; split; [reflexivity|]. intros ? ? [= <- <-]. exact H. Qed.

#[local] Opaque json.scanWord json.scanString json.scanNumber json.scanKey
  json.skipSpace.

Lemma scan_fuel (fuel : nat) :
  (∀ depth s, (String.length s < fuel)%nat →
     answers (json.scanValue fuel depth s) s) ∧
  (∀ depth acc s, (String.length s < fuel)%nat →
     answers (json.scanArrayRest fuel depth acc s) s) ∧
  (∀ depth acc s, (String.length s < fuel)%nat →
     answers (json.scanObjectRest fuel depth acc s) s).
Proof.
  induction fuel as [|fuel (IHv & IHa & IHo)]; [repeat split; intros; lia|].
  split; [|split].
  - intros depth s Hs. simpl.
    pose proof (skipSpace_length s) as Hsp.
    destruct (json.skipSpace s) as [|c r]; [apply answers_eof|]. simpl in Hsp.
    destruct (Ascii.eqb c "{").
    { destruct (json.maxNestingDepth <? depth + 1); [apply answers_error|].
      pose proof (skipSpace_length r) as Hsp'.
      destruct (json.skipSpace r) as [|c' r']; [apply answers_eof|]. simpl in Hsp'.
      destruct (Ascii.eqb c' "}"); [apply answers_scanned; lia|].
      destruct (json.scanKey r) as [key r1| |] eqn:Ek;
        [|apply answers_eof|apply answers_error].
      apply scanKey_length in Ek.
      destruct (IHv (depth + 1) r1) as (a & -> & Ha); [lia|].
      destruct a as [v r2| |]; [|apply answers_eof|apply answers_error].
      specialize (Ha _ _ eq_refl).
      destruct (IHo (depth + 1) [(key, v)] r2) as (b & -> & Hb); [lia|].
      destruct b as [ms r3| |]; [|apply answers_eof|apply answers_error].
      specialize (Hb _ _ eq_refl). apply answers_scanned. lia. }
    destruct (Ascii.eqb c "[").
    { destruct (json.maxNestingDepth <? depth + 1); [apply answers_error|].
      pose proof (skipSpace_length r) as Hsp'.
      destruct (json.skipSpace r) as [|c' r']; [apply answers_eof|]. simpl in Hsp'.
      destruct (Ascii.eqb c' "]"); [apply answers_scanned; lia|].
      destruct (IHv (depth + 1) r) as (a & -> & Ha); [lia|].
      destruct a as [v r1| |]; [|apply answers_eof|apply answers_error].
      specialize (Ha _ _ eq_refl).
      destruct (IHa (depth + 1) [v] r1) as (b & -> & Hb); [lia|].
      destruct b as [vs r2| |]; [|apply answers_eof|apply answers_error].
      specialize (Hb _ _ eq_refl). apply answers_scanned. lia. }
    destruct (byte c =? 34).
    { destruct (json.scanString (String.length r) "" r) as [str r'| |] eqn:E;
        [|apply answers_eof|apply answers_error].
      apply scanString_length in E. apply answers_scanned. lia. }
    destruct (Ascii.eqb c "-" || is_digit c).
    { destruct (json.scanNumber (String c r)) as [lit r'| |] eqn:E;
        [|apply answers_eof|apply answers_error].
      apply scanNumber_length in E. simpl in E. apply answers_scanned. lia. }
    destruct (Ascii.eqb c "t").
    { destruct (json.scanWord _ _ r) as [u r'| |] eqn:E;
        [|apply answers_eof|apply answers_error].
      apply scanWord_length in E. apply answers_scanned. lia. }
    destruct (Ascii.eqb c "f").
    { destruct (json.scanWord _ _ r) as [u r'| |] eqn:E;
        [|apply answers_eof|apply answers_error].
      apply scanWord_length in E. apply answers_scanned. lia. }
    destruct (Ascii.eqb c "n").
    { destruct (json.scanWord _ _ r) as [u r'| |] eqn:E;
        [|apply answers_eof|apply answers_error].
      apply scanWord_length in E. apply answers_scanned. lia. }
    apply answers_error.
  - intros depth acc s Hs. simpl.
    pose proof (skipSpace_length s) as Hsp.
    destruct (json.skipSpace s) as [|c r]; [apply answers_eof|]. simpl in Hsp.
    destruct (Ascii.eqb c "]"); [apply answers_scanned; lia|].
    destruct (Ascii.eqb c ","); [|apply answers_error].
    destruct (IHv depth r) as (a & -> & Ha); [lia|].
    destruct a as [v r1| |]; [|apply answers_eof|apply answers_error].
    specialize (Ha _ _ eq_refl).
    destruct (IHa depth (v :: acc) r1) as (b & Eb & Hb); [lia|].
    exists b. split; [exact Eb|]. intros vs rest ->.
    specialize (Hb _ _ eq_refl). lia.
  - intros depth acc s Hs. simpl.
    pose proof (skipSpace_length s) as Hsp.
    destruct (json.skipSpace s) as [|c r]; [apply answers_eof|]. simpl in Hsp.
    destruct (Ascii.eqb c "}"); [apply answers_scanned; lia|].
    destruct (Ascii.eqb c ","); [|apply answers_error].
    destruct (json.scanKey r) as [key r1| |] eqn:Ek;
      [|apply answers_eof|apply answers_error].
    apply scanKey_length in Ek.
    destruct (IHv depth r1) as (a & -> & Ha); [lia|].
    destruct a as [v r2| |]; [|apply answers_eof|apply answers_error].
    specialize (Ha _ _ eq_refl).
    destruct (IHo depth ((key, v) :: acc) r2) as (b & Eb & Hb); [lia|].
    exists b. split; [exact Eb|]. intros ms rest ->.
    specialize (Hb _ _ eq_refl). lia.
Qed.

#[local] Transparent json.scanWord json.scanString json.scanNumber json.scanKey
  json.skipSpace.

(** The fuel [readValue] gives is enough for every body. *)
Lemma scanValue_fuel (body : string) :
  ∃ a, json.scanValue (S (String.length body)) 0 body = Some a.
Proof.
  destruct (proj1 (scan_fuel (S (String.length body))) 0 body) as (a & Ha & _);
    [lia | eauto].
Qed.

(** *** Dates of the validator have the shape YYYY-MM-DD *)

Lemma leadingInt_all (s : string) : ∀ x q,
  time.leadingInt x s = Some (q, "") → forallb is_digit (list_ascii_of_string s) = true.
Proof.
  induction s as [|c s IH]; intros x q H; [reflexivity|].
  simpl in H. simpl. destruct (is_digit c); [|discriminate].
  repeat case_match; try discriminate. simpl. by eapply IH.
Qed.

Lemma atoi_digits (s : string) (c : ascii) (n : Z) :
  is_digit c = true → time.atoi (String c s) = Some n →
  forallb is_digit (list_ascii_of_string s) = true.
Proof.
  intros Hc. unfold time.atoi.
  destruct (Ascii.eqb c "-") eqn:E1; [apply Ascii.eqb_eq in E1; by subst|].
  destruct (Ascii.eqb c "+") eqn:E2; [apply Ascii.eqb_eq in E2; by subst|].
  destruct (time.leadingInt 0 (String c s)) as [[q r]|] eqn:E; [|discriminate].
  destruct r; [|discriminate]. intros _.
  apply leadingInt_all in E. simpl in E. by apply andb_true_iff in E as [_ E].
Qed.

Lemma getnum_fixed (s r : string) (n : Z) :
  time.getnum s true = Some (n, r) →
  ∃ a b, s = String a (String b r) ∧ is_digit a = true ∧ is_digit b = true.
Proof.
  unfold time.getnum, time.isDigit. destruct s as [|a [|b s]]; simpl.
  - discriminate.
  - destruct (is_digit a); discriminate.
  - destruct (is_digit a) eqn:Ea; simpl; [|discriminate].
    destruct (is_digit b) eqn:Eb; simpl; [|discriminate].
    intros H. simplify_eq. eauto.
Qed.

Lemma skip_hyphen (s r : string) :
  time.skip s "-" = Some r → s = String "-" r.
Proof.
  destruct s as [|c s]; [discriminate|].
  change (time.skip (String c s) "-")
    with (if Ascii.eqb c "-" then Some s else None).
  destruct (Ascii.eqb c "-") eqn:E; [|discriminate].
  apply Ascii.eqb_eq in E. intros H. by simplify_eq.
Qed.

#[local] Opaque time.skip time.getnum time.atoi time.daysIn.

Lemma Parse_shape (value : string) (ymd : Z * Z * Z) :
  time.Parse_2006_01_02 value = Some ymd → is_YYYY_MM_DD value = true.
Proof.
  unfold time.Parse_2006_01_02.
  destruct value as [|y1 [|y2 [|y3 [|y4 rest]]]]; try discriminate.
  change (String.length (String y1 (String y2 (String y3 (String y4 rest)))) <? 4)%nat
    with false.
  change (time.isDigit (String y1 (String y2 (String y3 (String y4 rest)))) 0)
    with (is_digit y1).
  change (substring 0 4 (String y1 (String y2 (String y3 (String y4 rest)))))
    with (String y1 (String y2 (String y3 (String y4 (substring 0 0 rest))))).
  assert (substring 0 0 rest = "") as -> by (destruct rest; reflexivity).
  assert (substring 4
            (String.length (String y1 (String y2 (String y3 (String y4 rest)))) - 4)
            (String y1 (String y2 (String y3 (String y4 rest)))) = rest) as ->.
  { simpl. rewrite Nat.sub_0_r. clear. induction rest as [|c r IH]; simpl; congruence. }
  intros H.
  destruct (is_digit y1) eqn:E1; simpl in H; [|discriminate].
  destruct (time.atoi _) as [year|] eqn:Ea; simpl in H; [|discriminate].
  apply atoi_digits in Ea; [|assumption]. simpl in Ea.
  apply andb_true_iff in Ea as [E2 Ea]. apply andb_true_iff in Ea as [E3 Ea].
  apply andb_true_iff in Ea as [E4 _].
  destruct (time.skip rest "-") as [r1|] eqn:Es1; simpl in H; [|discriminate].
  apply skip_hyphen in Es1 as ->.
  destruct (time.getnum r1 true) as [[month r2]|] eqn:Eg1; simpl in H; [|discriminate].
  apply getnum_fixed in Eg1 as (m1 & m2 & -> & Em1 & Em2).
  destruct ((month <=? 0) || (12 <? month)); [discriminate|].
  destruct (time.skip r2 "-") as [r3|] eqn:Es2; simpl in H; [|discriminate].
  apply skip_hyphen in Es2 as ->.
  destruct (time.getnum r3 true) as [[day r4]|] eqn:Eg2; simpl in H; [|discriminate].
  apply getnum_fixed in Eg2 as (d1 & d2 & -> & Ed1 & Ed2).
  destruct (String.eqb r4 "") eqn:Er; simpl in H; [|discriminate].
  apply String.eqb_eq in Er as ->.
  simpl. by rewrite E1, E2, E3, E4, Em1, Em2, Ed1, Ed2.
Qed.

#[local] Transparent time.skip time.getnum time.atoi time.daysIn.

(** A text that is not of the shape dddd-dd-dd is not a date for the
    validator. *)
Lemma isDatetime_shape (d : string) :
  is_YYYY_MM_DD d = false → validator.isDatetime d = false.
Proof.
  intros H. unfold validator.isDatetime.
  destruct (time.Parse_2006_01_02 d) as [ymd|] eqn:E; [|reflexivity].
  apply Parse_shape in E. congruence.
Qed.

Section Properties.

Context `{env : Env}.

(** *** Strings and wrapped errors *)

Lemma HasPrefix_app (p s : string) : HasPrefix (p +:+ s) p = true.
Proof.
  induction p as [|a p IH]; simpl; [reflexivity|].
  by rewrite Ascii.eqb_refl.
Qed.

Lemma HasPrefix_Contains (s p : string) :
  HasPrefix s p = true → Contains s p = true.
Proof. destruct s; simpl; intros ->; reflexivity. Qed.

Lemma append_assoc (a b c : string) : (a +:+ b) +:+ c = a +:+ (b +:+ c).
Proof.
  induction a as [|x a IH]; [reflexivity|].
  change (String x ((a +:+ b) +:+ c) = String x (a +:+ (b +:+ c))).
  by rewrite IH.
Qed.

Lemma Errorf_w_wraps {A} (prefix : string) (cause : error) (t : list Event) :
  fails_wrapping (A := A) prefix cause ((None, Some (Errorf_w prefix cause)), t).
Proof.
  exists (Errorf_w prefix cause). repeat split. apply HasPrefix_app.
Qed.

Lemma Errorf_d_w_wraps {A} (pre post : string) (n : Z) (cause : error)
    (t : list Event) :
  fails_wrapping (A := A) (Sprintf_d pre n +:+ post) cause
    ((None, Some (Errorf_d_w pre n post cause)), t).
Proof.
  exists (Errorf_d_w pre n post cause). unfold Errorf_d_w, Sprintf_d. simpl.
  repeat split.
  - by rewrite !append_assoc.
  - rewrite <- (append_assoc pre), <- append_assoc. apply HasPrefix_app.
Qed.

(** *** The runs of the five methods, case by case *)

Ltac run :=
  unfold GetCrypto, UpdateManualCrypto, GetTransactions, GetTransaction,
    Client_UpdateTransaction, do_Get, do_Put, validate_Struct,
    mbind, IO_bind, mret, IO_ret; simpl.

Ltac case_validation :=
  match goal with
  | |- context [validator.report ?x] => destruct (validator.report x)
  | |- context [Struct ?a ?b ?p] => destruct (Struct a b p)
  end.

(** The one call of the transport that a list of events holds. *)
Ltac the_call H :=
  let e := fresh "e" in
  let Hin := fresh "Hin" in
  let Hans := fresh "Hans" in
  destruct H as (e & Hin & Hans); simpl in Hin;
  repeat (destruct Hin as [<-|Hin]; [simpl in Hans|]); try contradiction;
  try discriminate; try (injection Hans as Hans).

(** Whatever the filters, the number written for [tag_id] cannot be
    stored into a string element: [ToMap] returns the decoder's error. *)
Lemma ToMap_fails (r : TransactionFilters) :
  ToMap r = (None, Some (UnmarshalTypeError "number" "string")).
Proof. reflexivity. Qed.

(** Hence a request with filters is never sent. *)
Lemma GetTransactions_with_filters (c : Client) (ctx : Ctx) (f : TransactionFilters) :
  httpCalls (trace (GetTransactions c ctx (Some f))) = [] ∧
  ∃ e, result (GetTransactions c ctx (Some f)) = (None, Some e).
Proof.
  run. case_validation; simpl; eauto.
Qed.

Lemma GetTransaction_with_filters (c : Client) (ctx : Ctx) (id : Z)
    (f : TransactionFilters) :
  httpCalls (trace (GetTransaction c ctx id (Some f))) = [] ∧
  ∃ e, result (GetTransaction c ctx id (Some f)) = (None, Some e).
Proof.
  run. case_validation; simpl; eauto.
Qed.

(** Without filters, and for [GetCrypto] always, the request is sent,
    once. *)
Lemma GetCrypto_sends_once (c : Client) (ctx : Ctx) :
  httpCalls (trace (GetCrypto c ctx)) = [EvGet ctx "/v1/crypto" (Some ∅)].
Proof.
  run. destruct (Get c ctx _ _); simpl; [destruct (json.Decode _ _ _)|];
    reflexivity.
Qed.

Lemma GetTransactions_sends_once (c : Client) (ctx : Ctx) :
  httpCalls (trace (GetTransactions c ctx None))
    = [EvGet ctx "/v1/transactions" (Some ∅)].
Proof.
  run. destruct (Get c ctx _ _); simpl; [destruct (json.Decode _ _ _)|];
    reflexivity.
Qed.

Lemma GetTransaction_sends_once (c : Client) (ctx : Ctx) (id : Z) :
  httpCalls (trace (GetTransaction c ctx id None))
    = [EvGet ctx (Sprintf_d "/v1/transactions/" id) (Some ∅)].
Proof.
  run. destruct (Get c ctx _ _) as [body|]; simpl; [|reflexivity].
  destruct (json.Decode _ _ body) as [resp|]; simpl; [|reflexivity].
  case_validation; reflexivity.
Qed.

Lemma GetCrypto_wraps_transport_error (c : Client) (ctx : Ctx) :
  wraps_transport_error c "get crypto: " (GetCrypto c ctx).
Proof.
  intros terr H. revert H. run.
  destruct (Get c ctx "/v1/crypto" (Some ∅)) as [body|err] eqn:E; simpl.
  - destruct (json.Decode _ _ body); simpl; intros H; the_call H; congruence.
  - intros H; the_call H. assert (err = terr) as -> by congruence.
    split; [apply Errorf_w_wraps | reflexivity].
Qed.

Lemma UpdateManualCrypto_wraps_transport_error (c : Client) (ctx : Ctx) (id : Z)
    (crypto : option UpdateCrypto) :
  wraps_transport_error c (Sprintf_d "put crypto " id +:+ ": ")
    (UpdateManualCrypto c ctx id crypto).
Proof.
  intros terr H. revert H. run.
  case_validation; simpl; [intros H; the_call H|].
  destruct (Put c ctx _ _) as [body|err] eqn:E; simpl.
  - destruct (json.Decode _ _ body); simpl; intros H; the_call H; congruence.
  - intros H; the_call H. assert (err = terr) as -> by congruence.
    split; [apply Errorf_d_w_wraps | reflexivity].
Qed.

Lemma GetTransactions_wraps_transport_error (c : Client) (ctx : Ctx)
    (filters : option TransactionFilters) :
  wraps_transport_error c "get transactions: " (GetTransactions c ctx filters).
Proof.
  intros terr H. revert H. destruct filters as [f|]; run.
  - case_validation; simpl; intros H; the_call H.
  - destruct (Get c ctx _ _) as [body|err] eqn:E; simpl.
    + destruct (json.Decode _ _ body); simpl; intros H; the_call H; congruence.
    + intros H; the_call H. assert (err = terr) as -> by congruence.
      split; [apply Errorf_w_wraps | reflexivity].
Qed.

Lemma GetTransaction_wraps_transport_error (c : Client) (ctx : Ctx) (id : Z)
    (filters : option TransactionFilters) :
  wraps_transport_error c (Sprintf_d "get transaction " id +:+ ": ")
    (GetTransaction c ctx id filters).
Proof.
  intros terr H. revert H. destruct filters as [f|]; run.
  - case_validation; simpl; intros H; the_call H.
  - destruct (Get c ctx _ _) as [body|err] eqn:E; simpl.
    + destruct (json.Decode _ _ body) as [resp|]; simpl;
        [case_validation; simpl|];
        intros H; the_call H; congruence.
    + intros H; the_call H. assert (err = terr) as -> by congruence.
      split; [apply Errorf_d_w_wraps | reflexivity].
Qed.

Lemma UpdateTransaction_wraps_transport_error (c : Client) (ctx : Ctx) (id : Z)
    (ut : option UpdateTransaction) :
  wraps_transport_error c (Sprintf_d "update transaction " id +:+ ": ")
    (Client_UpdateTransaction c ctx id ut).
Proof.
  intros terr H. revert H. run.
  case_validation; simpl; [intros H; the_call H|].
  destruct (Put c ctx _ _) as [body|err] eqn:E; simpl.
  - destruct (json.Decode _ _ body); simpl; intros H; the_call H; congruence.
  - intros H; the_call H. assert (err = terr) as -> by congruence.
    split; [apply Errorf_d_w_wraps | reflexivity].
Qed.

Lemma GetCrypto_wraps_decode_error (c : Client) (ctx : Ctx) :
  wraps_decode_error c (json.Decode store_CryptoResponse zeroCryptoResponse)
    (GetCrypto c ctx).
Proof.
  intros body derr H D. revert H. run.
  destruct (Get c ctx _ _) as [body'|err] eqn:E; simpl.
  - destruct (json.Decode _ _ body') as [resp|err] eqn:D'; simpl;
      intros H; the_call H; assert (body' = body) as -> by congruence;
      [congruence|].
    assert (err = derr) as -> by congruence. apply Errorf_w_wraps.
  - intros H; the_call H; congruence.
Qed.

Lemma UpdateManualCrypto_wraps_decode_error (c : Client) (ctx : Ctx) (id : Z)
    (crypto : option UpdateCrypto) :
  wraps_decode_error c (json.Decode store_Crypto zeroCrypto)
    (UpdateManualCrypto c ctx id crypto).
Proof.
  intros body derr H D. revert H. run.
  case_validation; simpl; [intros H; the_call H|].
  destruct (Put c ctx _ _) as [body'|err] eqn:E; simpl.
  - destruct (json.Decode _ _ body') as [resp|err] eqn:D'; simpl;
      intros H; the_call H; assert (body' = body) as -> by congruence;
      [congruence|].
    assert (err = derr) as -> by congruence. apply Errorf_w_wraps.
  - intros H; the_call H; congruence.
Qed.

Lemma GetTransactions_wraps_decode_error (c : Client) (ctx : Ctx)
    (filters : option TransactionFilters) :
  wraps_decode_error c
    (json.Decode store_TransactionsResponse zeroTransactionsResponse)
    (GetTransactions c ctx filters).
Proof.
  intros body derr H D. revert H. destruct filters as [f|]; run.
  - case_validation; simpl; intros H; the_call H.
  - destruct (Get c ctx _ _) as [body'|err] eqn:E; simpl.
    + destruct (json.Decode _ _ body') as [resp|err] eqn:D'; simpl;
        intros H; the_call H; assert (body' = body) as -> by congruence;
        [congruence|].
      assert (err = derr) as -> by congruence. apply Errorf_w_wraps.
    + intros H; the_call H; congruence.
Qed.

Lemma GetTransaction_wraps_decode_error (c : Client) (ctx : Ctx) (id : Z)
    (filters : option TransactionFilters) :
  wraps_decode_error c (json.Decode store_Transaction zeroTransaction)
    (GetTransaction c ctx id filters).
Proof.
  intros body derr H D. revert H. destruct filters as [f|]; run.
  - case_validation; simpl; intros H; the_call H.
  - destruct (Get c ctx _ _) as [body'|err] eqn:E; simpl.
    + destruct (json.Decode _ _ body') as [resp|err] eqn:D'; simpl;
        [case_validation; simpl|];
        intros H; the_call H; assert (body' = body) as -> by congruence;
        try congruence.
      assert (err = derr) as -> by congruence. apply Errorf_w_wraps.
    + intros H; the_call H; congruence.
Qed.

Lemma UpdateTransaction_wraps_decode_error (c : Client) (ctx : Ctx) (id : Z)
    (ut : option UpdateTransaction) :
  wraps_decode_error c
    (json.Decode store_UpdateTransactionResp zeroUpdateTransactionResp)
    (Client_UpdateTransaction c ctx id ut).
Proof.
  intros body derr H D. revert H. run.
  case_validation; simpl; [intros H; the_call H|].
  destruct (Put c ctx _ _) as [body'|err] eqn:E; simpl.
  - destruct (json.Decode _ _ body') as [resp|err] eqn:D'; simpl;
      intros H; the_call H; assert (body' = body) as -> by congruence;
      [congruence|].
    assert (err = derr) as -> by congruence. apply Errorf_w_wraps.
  - intros H; the_call H; congruence.
Qed.

Ltac cases :=
  repeat match goal with
  | |- context [validator.report ?x] => destruct (validator.report x)
  | |- context [Struct ?a ?b ?p] => destruct (Struct a b p)
  | |- context [Get ?c ?x ?p ?o] => destruct (Get c x p o)
  | |- context [Put ?c ?x ?p ?b] => destruct (Put c x p b)
  | |- context [json.Decode ?s ?z ?b] => destruct (json.Decode s z b)
  end; simpl.

Lemma httpCalls_UpdateManualCrypto (c : Client) (ctx : Ctx) (id : Z)
    (crypto : option UpdateCrypto) :
  httpCalls (trace (UpdateManualCrypto c ctx id crypto))
  = match crypto with
    | Some _ => [EvPut ctx (Sprintf_d "/v1/crypto/manual/" id) (PutUpdateCrypto crypto)]
    | None => []
    end.
Proof. destruct crypto; run; cases; reflexivity. Qed.

Lemma httpCalls_UpdateTransaction (c : Client) (ctx : Ctx) (id : Z)
    (ut : option UpdateTransaction) :
  httpCalls (trace (Client_UpdateTransaction c ctx id ut))
  = match Struct "UpdateTransaction" rules_UpdateTransaction ut with
    | None =>
        [EvPut ctx (Sprintf_d "/v1/transactions/" id)
           (PutUpdateRequest (mkUpdateRequest ut))]
    | Some _ => []
    end.
Proof.
  run. destruct (Struct "UpdateTransaction" rules_UpdateTransaction ut); simpl;
    cases; reflexivity.
Qed.

(** *** The filter encoder *)

(** C1. The specification has [ToMap] return the empty mapping for the
    filters whose fields are all zero, and leave out every zero field.
    The code returns no map and the decoder's error there: the struct
    has no [omitempty] option, so [tag_id] is written as the number [0],
    which cannot be stored into the [string] element of the map. *)
Theorem ToMap_zero_filters_fails :
  ToMap zeroTransactionFilters
    = (None, Some (UnmarshalTypeError "number" "string")) ∧
  ToMap zeroTransactionFilters ≠ (Some ∅, None).
Proof. split; [reflexivity | discriminate]. Qed.

(** C2. The specification has [ToMap] return the one entry
    [limit = "10"] for the filters whose only field that is not zero is
    [Limit = 10]. The code returns no map and the decoder's error, as
    it does for all filters. *)
Theorem ToMap_single_field_fails :
  ToMap (mkTransactionFilters 0 0 0 0 0 0 10 "" "" false)
    = (None, Some (UnmarshalTypeError "number" "string")) ∧
  ToMap (mkTransactionFilters 0 0 0 0 0 0 10 "" "" false)
    ≠ (Some {["limit" := "10"]}, None).
Proof. split; [reflexivity | discriminate]. Qed.

(** *** Validation of the input *)

Lemma isOneOf_status (s : string) :
  validator.isOneOf "cleared uncleared" s = true ↔ s = "cleared" ∨ s = "uncleared".
Proof.
  unfold validator.isOneOf.
  change (validator.parseOneOfParam2 "cleared uncleared")
    with ["cleared"; "uncleared"].
  simpl. rewrite !orb_true_iff, !String.eqb_eq. intuition discriminate.
Qed.

(** An update whose Date is present and is rejected by the validator. *)
Lemma UpdateTransaction_rejected_date (c : Client) (ctx : Ctx) (id : Z)
    (ut : UpdateTransaction) (d : string) :
  UpdateTransaction_Date ut = Some d →
  validator.isDatetime d = false →
  ∃ errs,
    Struct "UpdateTransaction" rules_UpdateTransaction (Some ut)
      = Some (ValidationErrors errs) ∧
    hd_error errs = Some (validator.fieldError "UpdateTransaction" "Date" "datetime") ∧
    Client_UpdateTransaction c ctx id (Some ut)
      = ((None, Some (ValidationErrors errs)), [EvValidate "UpdateTransaction"]).
Proof.
  intros Hd Hbad.
  exists (validator.fieldError "UpdateTransaction" "Date" "datetime" ::
          validator.omitnil_oneof "UpdateTransaction" "Status" "cleared uncleared"
            (UpdateTransaction_Status ut)).
  assert (rules_UpdateTransaction ut =
          validator.fieldError "UpdateTransaction" "Date" "datetime" ::
          validator.omitnil_oneof "UpdateTransaction" "Status" "cleared uncleared"
            (UpdateTransaction_Status ut)) as Hr.
  { unfold rules_UpdateTransaction, validator.omitnil_datetime.
    rewrite Hd, Hbad. reflexivity. }
  run. rewrite Hr. repeat split.
Qed.

(** C4. An update whose Date is present and does not have the shape
    YYYY-MM-DD makes [Client.UpdateTransaction] return the validator's
    error as it is, not wrapped, with the failure of Date first in it;
    the run consists of the validation alone, the transport is not
    called. *)
Theorem UpdateTransaction_malformed_date (c : Client) (ctx : Ctx) (id : Z)
    (ut : UpdateTransaction) (d : string) :
  UpdateTransaction_Date ut = Some d →
  is_YYYY_MM_DD d = false →
  ∃ errs,
    Struct "UpdateTransaction" rules_UpdateTransaction (Some ut)
      = Some (ValidationErrors errs) ∧
    hd_error errs = Some (validator.fieldError "UpdateTransaction" "Date" "datetime") ∧
    result (Client_UpdateTransaction c ctx id (Some ut))
      = (None, Some (ValidationErrors errs)) ∧
    Unwrap (ValidationErrors errs) = None ∧
    trace (Client_UpdateTransaction c ctx id (Some ut))
      = [EvValidate "UpdateTransaction"] ∧
    httpCalls (trace (Client_UpdateTransaction c ctx id (Some ut))) = [].
Proof.
  intros Hd Hshape. apply isDatetime_shape in Hshape.
  destruct (UpdateTransaction_rejected_date c ctx id ut d Hd Hshape)
    as (errs & Hs & Hhd & Hrun).
  exists errs. rewrite Hrun. repeat split; assumption.
Qed.

(** *** Failures of the transport and of the decoder *)

(** C5. Each of the five client methods, when the transport answers its
    request by an error: the method calls the transport once, with that
    request, returns nil and an error that wraps the transport's error,
    whose message is the name of the operation followed by the message of
    the transport's error. The requests are those of a read without
    filters and of an update whose payload passes validation; no other
    call reaches the transport. The last five parts say the same of every
    run, whatever its arguments, read off its trace. *)
Theorem transport_error_is_wrapped (c : Client) (ctx : Ctx) (id : Z)
    (crypto : UpdateCrypto) (ut : option UpdateTransaction) (terr : error)
    (filters : option TransactionFilters) (crypto' : option UpdateCrypto) :
  (Get c ctx "/v1/crypto" (Some ∅) = inr terr →
   sends_and_fails (EvGet ctx "/v1/crypto" (Some ∅)) "get crypto: " terr
     (GetCrypto c ctx)) ∧
  (Put c ctx (Sprintf_d "/v1/crypto/manual/" id) (PutUpdateCrypto (Some crypto))
     = inr terr →
   sends_and_fails
     (EvPut ctx (Sprintf_d "/v1/crypto/manual/" id) (PutUpdateCrypto (Some crypto)))
     (Sprintf_d "put crypto " id +:+ ": ") terr
     (UpdateManualCrypto c ctx id (Some crypto))) ∧
  (Get c ctx "/v1/transactions" (Some ∅) = inr terr →
   sends_and_fails (EvGet ctx "/v1/transactions" (Some ∅)) "get transactions: " terr
     (GetTransactions c ctx None)) ∧
  (Get c ctx (Sprintf_d "/v1/transactions/" id) (Some ∅) = inr terr →
   sends_and_fails (EvGet ctx (Sprintf_d "/v1/transactions/" id) (Some ∅))
     (Sprintf_d "get transaction " id +:+ ": ") terr
     (GetTransaction c ctx id None)) ∧
  (Struct "UpdateTransaction" rules_UpdateTransaction ut = None →
   Put c ctx (Sprintf_d "/v1/transactions/" id) (PutUpdateRequest (mkUpdateRequest ut))
     = inr terr →
   sends_and_fails
     (EvPut ctx (Sprintf_d "/v1/transactions/" id)
        (PutUpdateRequest (mkUpdateRequest ut)))
     (Sprintf_d "update transaction " id +:+ ": ") terr
     (Client_UpdateTransaction c ctx id ut)) ∧
  wraps_transport_error c "get crypto: " (GetCrypto c ctx) ∧
  wraps_transport_error c (Sprintf_d "put crypto " id +:+ ": ")
    (UpdateManualCrypto c ctx id crypto') ∧
  wraps_transport_error c "get transactions: " (GetTransactions c ctx filters) ∧
  wraps_transport_error c (Sprintf_d "get transaction " id +:+ ": ")
    (GetTransaction c ctx id filters) ∧
  wraps_transport_error c (Sprintf_d "update transaction " id +:+ ": ")
    (Client_UpdateTransaction c ctx id ut).
Proof.
  split; [|split; [|split; [|split; [|split; [|split; [|split; [|split; [|split]]]]]]]].
  - intros H. split; [|apply GetCrypto_sends_once].
    run. rewrite H. apply Errorf_w_wraps.
  - intros H. split; [|apply httpCalls_UpdateManualCrypto].
    run. rewrite H. apply Errorf_d_w_wraps.
  - intros H. split; [|apply GetTransactions_sends_once].
    run. rewrite H. apply Errorf_w_wraps.
  - intros H. split; [|apply GetTransaction_sends_once].
    run. rewrite H. apply Errorf_d_w_wraps.
  - intros V H. split; [|by rewrite httpCalls_UpdateTransaction, V].
    run. rewrite V. simpl. rewrite H. apply Errorf_d_w_wraps.
  - apply GetCrypto_wraps_transport_error.
  - apply UpdateManualCrypto_wraps_transport_error.
  - apply GetTransactions_wraps_transport_error.
  - apply GetTransaction_wraps_transport_error.
  - apply UpdateTransaction_wraps_transport_error.
Qed.

(** C6. Each of the five client methods, when the transport answers its
    request by a body that does not decode into the response type of the
    method: the method calls the transport once, with that request,
    returns nil and an error that wraps the decoder's error under the
    prefix ["decode response: "]. The last five parts say the same of
    every run, whatever its arguments, read off its trace. *)
Theorem decode_error_is_wrapped (c : Client) (ctx : Ctx) (id : Z)
    (crypto : UpdateCrypto) (ut : option UpdateTransaction) (body : string)
    (derr : error) (filters : option TransactionFilters)
    (crypto' : option UpdateCrypto) :
  (Get c ctx "/v1/crypto" (Some ∅) = inl body →
   json.Decode store_CryptoResponse zeroCryptoResponse body = inr derr →
   sends_and_fails (EvGet ctx "/v1/crypto" (Some ∅)) "decode response: " derr
     (GetCrypto c ctx)) ∧
  (Put c ctx (Sprintf_d "/v1/crypto/manual/" id) (PutUpdateCrypto (Some crypto))
     = inl body →
   json.Decode store_Crypto zeroCrypto body = inr derr →
   sends_and_fails
     (EvPut ctx (Sprintf_d "/v1/crypto/manual/" id) (PutUpdateCrypto (Some crypto)))
     "decode response: " derr
     (UpdateManualCrypto c ctx id (Some crypto))) ∧
  (Get c ctx "/v1/transactions" (Some ∅) = inl body →
   json.Decode store_TransactionsResponse zeroTransactionsResponse body = inr derr →
   sends_and_fails (EvGet ctx "/v1/transactions" (Some ∅)) "decode response: " derr
     (GetTransactions c ctx None)) ∧
  (Get c ctx (Sprintf_d "/v1/transactions/" id) (Some ∅) = inl body →
   json.Decode store_Transaction zeroTransaction body = inr derr →
   sends_and_fails (EvGet ctx (Sprintf_d "/v1/transactions/" id) (Some ∅))
     "decode response: " derr
     (GetTransaction c ctx id None)) ∧
  (Struct "UpdateTransaction" rules_UpdateTransaction ut = None →
   Put c ctx (Sprintf_d "/v1/transactions/" id) (PutUpdateRequest (mkUpdateRequest ut))
     = inl body →
   json.Decode store_UpdateTransactionResp zeroUpdateTransactionResp body
     = inr derr →
   sends_and_fails
     (EvPut ctx (Sprintf_d "/v1/transactions/" id)
        (PutUpdateRequest (mkUpdateRequest ut)))
     "decode response: " derr
     (Client_UpdateTransaction c ctx id ut)) ∧
  wraps_decode_error c (json.Decode store_CryptoResponse zeroCryptoResponse)
    (GetCrypto c ctx) ∧
  wraps_decode_error c (json.Decode store_Crypto zeroCrypto)
    (UpdateManualCrypto c ctx id crypto') ∧
  wraps_decode_error c
    (json.Decode store_TransactionsResponse zeroTransactionsResponse)
    (GetTransactions c ctx filters) ∧
  wraps_decode_error c (json.Decode store_Transaction zeroTransaction)
    (GetTransaction c ctx id filters) ∧
  wraps_decode_error c
    (json.Decode store_UpdateTransactionResp zeroUpdateTransactionResp)
    (Client_UpdateTransaction c ctx id ut).
Proof.
  split; [|split; [|split; [|split; [|split; [|split; [|split; [|split; [|split]]]]]]]].
  - intros H E. split; [|apply GetCrypto_sends_once].
    run. rewrite H. simpl. rewrite E. apply Errorf_w_wraps.
  - intros H E. split; [|apply httpCalls_UpdateManualCrypto].
    run. rewrite H. simpl. rewrite E. apply Errorf_w_wraps.
  - intros H E. split; [|apply GetTransactions_sends_once].
    run. rewrite H. simpl. rewrite E. apply Errorf_w_wraps.
  - intros H E. split; [|apply GetTransaction_sends_once].
    run. rewrite H. simpl. rewrite E. apply Errorf_w_wraps.
  - intros V H E. split; [|by rewrite httpCalls_UpdateTransaction, V].
    run. rewrite V. simpl. rewrite H. simpl. rewrite E. apply Errorf_w_wraps.
  - apply GetCrypto_wraps_decode_error.
  - apply UpdateManualCrypto_wraps_decode_error.
  - apply GetTransactions_wraps_decode_error.
  - apply GetTransaction_wraps_decode_error.
  - apply UpdateTransaction_wraps_decode_error.
Qed.

(** *** Crypto records *)

Lemma Decode_empty_crypto :
  json.Decode store_CryptoResponse zeroCryptoResponse (jsonText "{'crypto': []}")
    = inl (mkCryptoResponse (Some [])).
Proof. reflexivity. Qed.

(** C7. When the server answers the crypto list request with the body
    [{"crypto": []}], [GetCrypto] returns the empty list, which is not
    the nil list ([Some []], not [None]), and no error. *)
Theorem GetCrypto_empty_list (c : Client) (ctx : Ctx) :
  Get c ctx "/v1/crypto" (Some ∅) = inl (jsonText "{'crypto': []}") →
  result (GetCrypto c ctx) = (Some [], None).
Proof.
  intros H. run. rewrite H. reflexivity.
Qed.

(** *** What the decoder stores into a Crypto *)

Lemma lookupField_In (fields : list string) (key name : string) :
  json.lookupField fields key = Some name → In name fields.
Proof.
  unfold json.lookupField. destruct (find (String.eqb key) fields) eqn:E.
  - intros [= <-]. by apply find_some in E as [? _].
  - intros H. by apply find_some in H as [? _].
Qed.

Lemma saveError_saved {S} (e : error) (st st' : json.dstate S) (u : unit) :
  json.saveError e st = json.Stored u st' → json.savedError st' ≠ None.
Proof.
  unfold json.saveError. destruct st as [[saved|] sp]; simpl;
    intros H; simplify_eq; discriminate.
Qed.

Ltac stores :=
  unfold json.store_ptr, json.store_int, json.store_string, json.store_bool,
    store_Time, store_float64, json.typeError, json.bind, json.ret, json.abort,
    json.saveError in *; simpl in *.

(** One member stored into a Crypto without an error saved: no error had
    been saved before it, and the two identifiers are those of before, but
    for the one that the member names. *)
Lemma storeField_Crypto_identifiers (name : string) (cur cur' : Crypto)
    (v : json.value) (st st' : json.dstate (option Crypto)) :
  In name fields_Crypto →
  storeField_Crypto name cur v st = json.Stored cur' st' →
  json.savedError st' = None →
  json.savedError st = None ∧
  Crypto_ID cur'
    = (if bool_decide (name = "id") then identifier v else Crypto_ID cur) ∧
  Crypto_ZaboAccountID cur'
    = (if bool_decide (name = "zabo_account_id") then identifier v
       else Crypto_ZaboAccountID cur) ∧
  (name = "id" ∨ name = "zabo_account_id" → sentIdentifier v).
Proof.
  intros Hin. destruct cur as [id zabo src nm dn bal asof ccy status inst created tb].
  destruct st as [saved sp].
  assert (∀ P : Prop, (name = "id" ∨ name = "zabo_account_id" → P) ↔
            (bool_decide (name = "id") || bool_decide (name = "zabo_account_id")
             = true → P)) as Hor.
  { intros P. rewrite orb_true_iff, !bool_decide_eq_true. reflexivity. }
  rewrite Hor. clear Hor. unfold sentIdentifier.
  simpl in Hin.
  repeat (destruct Hin as [<-|Hin]); [..|contradiction];
    unfold storeField_Crypto; simpl; stores;
    destruct v as [|b|lit|s|l|ms]; simpl;
    repeat match goal with
           | |- context [json.ParseInt ?x] => destruct (json.ParseInt x) eqn:?
           | |- context [ParseFloat ?x] => destruct (ParseFloat x) eqn:?
           | |- context [parseRFC3339 ?x] => destruct (parseRFC3339 x) eqn:?
           end; simpl;
    intros H; simplify_eq; simpl;
    try (destruct saved; simpl; discriminate);
    intros ->; repeat split; try discriminate; eauto.
Qed.

Lemma store_members_Crypto (members : list (string * json.value)) :
  ∀ (cur r : Crypto) (st st' : json.dstate (option Crypto)),
    json.store_members fields_Crypto storeField_Crypto cur members st
      = json.Stored r st' →
    json.savedError st' = None →
    json.savedError st = None ∧
    Crypto_ID r
      = match lastMember fields_Crypto "id" members with
        | Some v => identifier v
        | None => Crypto_ID cur
        end ∧
    Crypto_ZaboAccountID r
      = match lastMember fields_Crypto "zabo_account_id" members with
        | Some v => identifier v
        | None => Crypto_ZaboAccountID cur
        end ∧
    ∀ key v name, In (key, v) members →
      json.lookupField fields_Crypto key = Some name →
      name = "id" ∨ name = "zabo_account_id" → sentIdentifier v.
Proof.
  induction members as [|[key v] members IH]; intros cur r st st' H Hst.
  - injection H as <- <-. repeat split; try assumption. intros ? ? ? [].
  - simpl in H. unfold json.bind at 1 in H.
    destruct (json.lookupField fields_Crypto key) as [name|] eqn:Ek.
    + destruct (storeField_Crypto name cur v st) as [cur1 st1|e] eqn:E1;
        [|discriminate].
      destruct (IH _ _ _ _ H Hst) as (Hst1 & Hid & Hz & Hall).
      destruct (storeField_Crypto_identifiers name cur cur1 v st st1
                  (lookupField_In _ _ _ Ek) E1 Hst1) as (Hst0 & Hid1 & Hz1 & Hv).
      split; [exact Hst0|]. cbn [lastMember]. rewrite Hid, Hz, Hid1, Hz1, Ek.
      split; [|split].
      * destruct (lastMember fields_Crypto "id" members); [reflexivity|].
        repeat case_bool_decide; simplify_eq; try reflexivity; congruence.
      * destruct (lastMember fields_Crypto "zabo_account_id" members);
          [reflexivity|].
        repeat case_bool_decide; simplify_eq; try reflexivity; congruence.
      * intros k w n [[= <- <-]|Hin] Hk Hn; [|by eapply Hall].
        apply Hv. congruence.
    + unfold json.ret in H.
      destruct (IH _ _ _ _ H Hst) as (Hst1 & Hid & Hz & Hall).
      split; [exact Hst1|]. cbn [lastMember]. rewrite Hid, Hz, Ek.
      split; [|split].
      * by destruct (lastMember fields_Crypto "id" members).
      * by destruct (lastMember fields_Crypto "zabo_account_id" members).
      * intros k w n [[= <- <-]|Hin] Hk Hn; [congruence | by eapply Hall].
Qed.

(** A value stored into a zero Crypto without an error saved. *)
Lemma store_Crypto_identifiers (v : json.value) (r : Crypto)
    (st st' : json.dstate (option Crypto)) :
  store_Crypto zeroCrypto v st = json.Stored r st' →
  json.savedError st' = None →
  json.savedError st = None ∧
  (v = json.JNull ∨ ∃ members, v = json.JObject members) ∧
  Crypto_ID r = sentAs "id" v ∧
  Crypto_ZaboAccountID r = sentAs "zabo_account_id" v ∧
  ∀ key w name, In (key, w) (membersOf v) →
    json.lookupField fields_Crypto key = Some name →
    name = "id" ∨ name = "zabo_account_id" → sentIdentifier w.
Proof.
  unfold store_Crypto, json.store_struct, sentAs.
  destruct v as [|b|lit|s|l|ms]; simpl;
    try (unfold json.typeError, json.bind, json.ret;
         destruct (json.saveError _ st) as [u st1|e] eqn:E; [|discriminate];
         intros [= <- <-] Hst; by apply saveError_saved in E).
  - intros [= <- <-] Hst. repeat split; eauto. intros ? ? ? [].
  - intros H Hst.
    destruct (store_members_Crypto ms _ _ _ _ H Hst) as (H0 & Hid & Hz & Hall).
    split; [exact H0|]. split; [eauto|]. rewrite Hid, Hz. simpl.
    split; [|split]; [| |exact Hall];
      by destruct (lastMember fields_Crypto _ ms).
Qed.

(** The elements of an array stored into a new backing array. *)
Lemma store_elems_Crypto (elems : list json.value) :
  ∀ (l : list (option Crypto)) (st st' : json.dstate (option Crypto)),
    json.store_elems (json.store_ptr store_Crypto zeroCrypto) None [] elems st
      = json.Stored l st' →
    json.savedError st' = None →
    json.savedError st = None ∧ Forall2 entryOf elems l.
Proof.
  induction elems as [|v elems IH]; intros l st st' H Hst; simpl in H.
  - injection H as <- <-. split; [assumption | constructor].
  - unfold json.bind at 1 in H.
    destruct (json.store_ptr store_Crypto zeroCrypto None v st) as [a st1|e] eqn:E1;
      [|discriminate].
    unfold json.bind at 1 in H.
    destruct (json.store_elems _ _ [] elems st1) as [l' st2|e] eqn:E2;
      [|discriminate].
    injection H as <- <-.
    destruct (IH _ _ _ E2 Hst) as (Hst1 & Hall).
    unfold json.store_ptr in E1.
    assert (v = json.JNull ∨ v ≠ json.JNull) as [->|Hv]
      by (destruct v; [by left|right; discriminate..]).
    + injection E1 as <- <-. split; [assumption|]. by constructor.
    + assert (json.bind (store_Crypto zeroCrypto v) (λ a, json.ret (Some a)) st
              = json.Stored a st1) as E by (by destruct v).
      unfold json.bind, json.ret in E.
      destruct (store_Crypto zeroCrypto v st) as [r st1'|e] eqn:Er; [|discriminate].
      injection E as <- ->.
      destruct (store_Crypto_identifiers v r st st1 Er Hst1)
        as (Hst0 & [->|Hobj] & Hid & Hz & _); [done|].
      split; [assumption|]. constructor; [|assumption]. by split.
Qed.

Lemma GetCrypto_returns_decoded (c : Client) (ctx : Ctx) (body : string)
    (resp : CryptoResponse) :
  Get c ctx "/v1/crypto" (Some ∅) = inl body →
  json.Decode store_CryptoResponse zeroCryptoResponse body = inl resp →
  result (GetCrypto c ctx) = (CryptoResponse_Crypto resp, None).
Proof. intros H D. run. rewrite H. simpl. rewrite D. reflexivity. Qed.

Lemma Decode_Crypto (body : string) (v : json.value) (r : Crypto) :
  json.readValue body = inl v →
  json.Decode store_Crypto zeroCrypto body = inl r →
  Crypto_ID r = sentAs "id" v ∧
  Crypto_ZaboAccountID r = sentAs "zabo_account_id" v ∧
  ∀ key w name, In (key, w) (membersOf v) →
    json.lookupField fields_Crypto key = Some name →
    name = "id" ∨ name = "zabo_account_id" → sentIdentifier w.
Proof.
  unfold json.Decode. intros -> H.
  destruct (store_Crypto zeroCrypto v json.start) as [r' st'|e] eqn:E;
    simpl in H; [|discriminate].
  destruct (json.savedError st') eqn:Hst; [discriminate|]. injection H as ->.
  by destruct (store_Crypto_identifiers v r _ _ E Hst) as (_ & _ & ? & ? & ?).
Qed.

Lemma store_slice_new {A} (store : A → json.value → json.D A A) (zero : A)
    (ty : string) (elems : list json.value) (st : json.dstate A) :
  json.spare st = [] →
  json.store_slice store zero ty None (json.JArray elems) st
  = match json.store_elems store zero [] elems st with
    | json.Stored l st' => json.Stored (Some l) (json.mkDstate (json.savedError st') [])
    | json.Aborted e => json.Aborted e
    end.
Proof.
  intros Hsp. unfold json.store_slice. destruct elems as [|v elems]; [reflexivity|].
  unfold json.bind at 1. unfold json.getSpare. rewrite Hsp.
  cbn [from_option id app].
  unfold json.bind at 1.
  destruct (json.store_elems store zero [] (v :: elems) st) as [l st'|e];
    [|reflexivity].
  unfold json.bind, json.setSpare, json.ret. by rewrite drop_nil.
Qed.

Lemma store_members_skip {S A} (fields : list string)
    (storeField : string → A → json.value → json.D S A) (cur : A)
    (members : list (string * json.value)) (st : json.dstate S) :
  (∀ key v, In (key, v) members → json.lookupField fields key = None) →
  json.store_members fields storeField cur members st = json.Stored cur st.
Proof.
  induction members as [|[key v] members IH]; intros H; [reflexivity|].
  simpl. unfold json.bind at 1.
  rewrite (H key v) by (left; reflexivity). simpl.
  apply IH. intros k w Hin. apply (H k w). by right.
Qed.

Lemma store_members_app {S A} (fields : list string)
    (storeField : string → A → json.value → json.D S A)
    (ms1 ms2 : list (string * json.value)) :
  ∀ (cur : A) (st : json.dstate S),
    json.store_members fields storeField cur (ms1 ++ ms2) st
    = json.bind (json.store_members fields storeField cur ms1)
        (λ cur', json.store_members fields storeField cur' ms2) st.
Proof.
  induction ms1 as [|[key v] ms1 IH]; intros cur st; [reflexivity|].
  simpl. unfold json.bind.
  destruct (match json.lookupField fields key with
            | Some name => storeField name cur v
            | None => json.ret cur
            end st) as [cur1 st1|e]; [|reflexivity].
  rewrite IH. reflexivity.
Qed.

Lemma Decode_CryptoResponse (body : string)
    (members : list (string * json.value)) (elems : list json.value)
    (l : list (option Crypto)) :
  json.readValue body = inl (json.JObject members) →
  singleMember ["crypto"] members (json.JArray elems) →
  json.Decode store_CryptoResponse zeroCryptoResponse body
    = inl (mkCryptoResponse (Some l)) →
  Forall2 entryOf elems l.
Proof.
  unfold json.Decode. intros -> (before & key & after & -> & [name Hk] & Hno) H.
  revert H.
  assert (name = "crypto") as ->.
  { apply lookupField_In in Hk. by destruct Hk as [<-|[]]. }
  unfold store_CryptoResponse, json.store_struct.
  rewrite store_members_app. unfold json.bind at 1.
  rewrite store_members_skip
    by (intros k w Hin; apply (Hno k w), in_or_app; by left).
  cbn [json.store_members]. rewrite Hk.
  unfold storeField_CryptoResponse at 1. simpl String.eqb. cbv iota.
  unfold json.bind at 1. unfold json.bind at 1.
  change (CryptoResponse_Crypto zeroCryptoResponse)
    with (@None (list (option Crypto))).
  rewrite store_slice_new by reflexivity.
  destruct (json.store_elems _ _ [] elems json.start) as [l' st2|e] eqn:E;
    [|discriminate].
  unfold json.ret at 1.
  rewrite store_members_skip
    by (intros k w Hin; apply (Hno k w), in_or_app; by right).
  unfold json.finish. cbn [json.savedError].
  destruct (json.savedError st2) eqn:Hst; [discriminate|].
  intros [= <-].
  by apply (store_elems_Crypto elems l' json.start st2).
Qed.

(** C9, as amended. A Crypto record is returned as it was decoded, by
    [GetCrypto] and by [UpdateManualCrypto] alike: nothing relates its
    identifiers to each other or to Source. In a record that is decoded
    from a response of its own, and in the records of the list of a
    response that has one member for [crypto], ID is what the last member
    for [id] carries, a number or nothing, and so is ZaboAccountID for
    [zabo_account_id], whatever the other members are. *)
Theorem Crypto_identifiers_as_sent (c : Client) (ctx : Ctx) (id : Z)
    (crypto : UpdateCrypto) (body : string) :
  (∀ resp,
     Get c ctx "/v1/crypto" (Some ∅) = inl body →
     json.Decode store_CryptoResponse zeroCryptoResponse body = inl resp →
     result (GetCrypto c ctx) = (CryptoResponse_Crypto resp, None)) ∧
  (∀ r,
     Put c ctx (Sprintf_d "/v1/crypto/manual/" id) (PutUpdateCrypto (Some crypto))
       = inl body →
     json.Decode store_Crypto zeroCrypto body = inl r →
     result (UpdateManualCrypto c ctx id (Some crypto)) = (Some r, None)) ∧
  (∀ v r,
     json.readValue body = inl v →
     json.Decode store_Crypto zeroCrypto body = inl r →
     Crypto_ID r = sentAs "id" v ∧
     Crypto_ZaboAccountID r = sentAs "zabo_account_id" v) ∧
  (∀ members elems l,
     json.readValue body = inl (json.JObject members) →
     singleMember ["crypto"] members (json.JArray elems) →
     json.Decode store_CryptoResponse zeroCryptoResponse body
       = inl (mkCryptoResponse (Some l)) →
     Forall2 entryOf elems l).
Proof.
  split; [|split; [|split]].
  - intros resp. apply GetCrypto_returns_decoded.
  - intros r H E. run. rewrite H. simpl. rewrite E. reflexivity.
  - intros v r Hv E.
    by destruct (Decode_Crypto body v r Hv E) as (? & ? & _).
  - intros members elems l. apply Decode_CryptoResponse.
Qed.

(** *** Mutating calls *)


(** C10, as amended. No field of an update payload is mandatory: the
    update with every field absent passes validation and is sent, for
    transactions and for crypto assets alike (the latter has no rule at
    all). Only the nil payload is refused before anything is sent. The
    input of [UpdateTransaction] that is not nil is rejected only for a
    Date that is present and malformed or a Status that is present and
    neither [cleared] nor [uncleared]. *)
Theorem update_payload_has_no_mandatory_field (c : Client) (ctx : Ctx) (id : Z)
    (crypto : UpdateCrypto) :
  httpCalls (trace (Client_UpdateTransaction c ctx id (Some zeroUpdateTransaction)))
    = [EvPut ctx (Sprintf_d "/v1/transactions/" id)
         (PutUpdateRequest (mkUpdateRequest (Some zeroUpdateTransaction)))] ∧
  httpCalls (trace (UpdateManualCrypto c ctx id (Some crypto)))
    = [EvPut ctx (Sprintf_d "/v1/crypto/manual/" id) (PutUpdateCrypto (Some crypto))] ∧
  Client_UpdateTransaction c ctx id None
    = ((None, Some (InvalidValidationError "*lunchmoney.UpdateTransaction")),
       [EvValidate "UpdateTransaction"]) ∧
  UpdateManualCrypto c ctx id None
    = ((None, Some (InvalidValidationError "*lunchmoney.UpdateCrypto")),
       [EvValidate "UpdateCrypto"]) ∧
  ∀ ut,
    Struct "UpdateTransaction" rules_UpdateTransaction (Some ut) = None ↔
    (∀ d, UpdateTransaction_Date ut = Some d → validator.isDatetime d = true) ∧
    (∀ s, UpdateTransaction_Status ut = Some s → s = "cleared" ∨ s = "uncleared").
Proof.
  split; [|split; [|split; [|split]]]; try reflexivity.
  - run. destruct (Put c ctx _ _); simpl; [destruct (json.Decode _ _ _)|]; reflexivity.
  - run. destruct (Put c ctx _ _); simpl; [destruct (json.Decode _ _ _)|]; reflexivity.
  - intros ut. unfold Struct, rules_UpdateTransaction,
      validator.omitnil_datetime, validator.omitnil_oneof.
    destruct (UpdateTransaction_Date ut) as [d|];
      [destruct (validator.isDatetime d) eqn:Ed|];
      (destruct (UpdateTransaction_Status ut) as [s|];
       [destruct (validator.isOneOf "cleared uncleared" s) eqn:Es|]);
      simpl; split; try discriminate; try reflexivity.
    all: try (intros _; split; intros ? [= <-]; try assumption;
              by apply isOneOf_status).
    all: try (intros _; split; intros ? [=]).
    all: intros [Hd Hs].
    all: try (specialize (Hd _ eq_refl); congruence).
    all: try (specialize (Hs _ eq_refl); apply isOneOf_status in Hs; congruence).
Qed.

(** *** Amounts *)

(** With a ticker that the table does not list, every policy but the
    lenient one refuses ["1.5"]. *)
Lemma ParseCurrency_strict (fractionDigits : string → option nat)
    (policy : Currency.Policy) :
  fractionDigits "BTC" = None →
  policy ≠ Currency.lenient →
  ∃ e, Currency.ParseCurrency fractionDigits policy "1.5" "BTC" = (None, Some e).
Proof.
  intros Hbtc Hp. unfold Currency.ParseCurrency. simpl. rewrite Hbtc.
  destruct policy as [[] []]; simpl; eauto.
  exfalso. by apply Hp.
Qed.

(** Which tables and policies accept ["1.5"] for ["BTC"]. *)
Lemma ParseCurrency_BTC_accepted (fractionDigits : string → option nat)
    (policy : Currency.Policy) :
  (∃ m, Currency.ParseCurrency fractionDigits policy "1.5" "BTC" = (Some m, None)) ↔
  match fractionDigits "BTC" with
  | Some (S _) => True
  | Some O => Currency.extraDigits policy = Currency.RoundHalfAwayFromZero
  | None => policy = Currency.lenient
  end.
Proof.
  unfold Currency.ParseCurrency. simpl.
  destruct (fractionDigits "BTC") as [[|fd]|], policy as [[] []]; simpl;
    split; try (intros [m [=]]); try discriminate; eauto.
Qed.

(** C8. [ParsedAmount] of a record with balance ["1.5"] and currency
    ["BTC"] succeeds with the currency code ["BTC"], and of a record
    with balance ["invalid"] and currency ["ETH"] fails with the
    malformed-amount error: for [ParseCurrency] as section 4.1 of the
    specification describes it, under any currency table, with extra
    fraction digits rounded and unlisted codes given no fraction
    digits. *)
Theorem ParsedAmount_scenario (fractionDigits : string → option nat)
    (btc eth : Crypto) :
  Crypto_Balance btc = "1.5" → Crypto_Currency btc = "BTC" →
  Crypto_Balance eth = "invalid" → Crypto_Currency eth = "ETH" →
  (∃ m, Currency.Crypto_ParsedAmount fractionDigits Currency.lenient btc
          = (Some m, None) ∧
        Currency.currencyCode m = "BTC") ∧
  Currency.Crypto_ParsedAmount fractionDigits Currency.lenient eth
    = (None, Some ErrMalformedAmount).
Proof.
  intros Hb Hc Hb' Hc'. unfold Currency.Crypto_ParsedAmount.
  rewrite Hb, Hc, Hb', Hc'. split; [|reflexivity].
  unfold Currency.ParseCurrency. simpl.
  destruct (fractionDigits "BTC") as [[|fd]|]; simpl; eauto.
Qed.

(** *** Further properties: filters *)


(** X3. [GetTransactions] with filters sends nothing: it returns the
    validator's error as it is, or else the error of [ToMap] wrapped under
    ["convert filters to map: "]. *)
Theorem GetTransactions_filters_outcome (c : Client) (ctx : Ctx)
    (f : TransactionFilters) :
  GetTransactions c ctx (Some f)
  = (match Struct "TransactionFilters" rules_TransactionFilters (Some f) with
     | Some err => (None, Some err)
     | None =>
         (None,
          Some (Errorf_w "convert filters to map: "
                  (UnmarshalTypeError "number" "string")))
     end,
     [EvValidate "TransactionFilters"]).
Proof. run. case_validation; reflexivity. Qed.

(** X4. [GetTransaction] with filters sends nothing either, and returns
    the error of [ToMap] as it is, not wrapped. *)
Theorem GetTransaction_filters_outcome (c : Client) (ctx : Ctx) (id : Z)
    (f : TransactionFilters) :
  GetTransaction c ctx id (Some f)
  = (match Struct "TransactionFilters" rules_TransactionFilters (Some f) with
     | Some err => (None, Some err)
     | None => (None, Some (UnmarshalTypeError "number" "string"))
     end,
     [EvValidate "TransactionFilters"]).
Proof. run. case_validation; reflexivity. Qed.

(** *** Further properties: validation reports every failure *)

(** X5. Validation does not stop at the first failure: filters with two
    bad dates get both reported, StartDate first, and an update with a bad
    Date and a bad Status gets both reported, Date first. *)
Theorem validation_accumulates (f : TransactionFilters) (ut : UpdateTransaction)
    (d s : string) :
  dateAccepted (StartDate f) = false →
  dateAccepted (EndDate f) = false →
  UpdateTransaction_Date ut = Some d →
  validator.isDatetime d = false →
  UpdateTransaction_Status ut = Some s →
  s ≠ "cleared" → s ≠ "uncleared" →
  Struct "TransactionFilters" rules_TransactionFilters (Some f)
    = Some (ValidationErrors
              [validator.fieldError "TransactionFilters" "StartDate" "datetime";
               validator.fieldError "TransactionFilters" "EndDate" "datetime"]) ∧
  Struct "UpdateTransaction" rules_UpdateTransaction (Some ut)
    = Some (ValidationErrors
              [validator.fieldError "UpdateTransaction" "Date" "datetime";
               validator.fieldError "UpdateTransaction" "Status" "oneof"]).
Proof.
  unfold dateAccepted. intros Hs He Hd Hbad Hst Hc Hu.
  apply orb_false_iff in Hs as [Hs1 Hs2]. apply orb_false_iff in He as [He1 He2].
  split.
  - unfold Struct, rules_TransactionFilters, validator.omitempty_datetime.
    by rewrite Hs1, Hs2, He1, He2.
  - unfold Struct, rules_UpdateTransaction, validator.omitnil_datetime,
      validator.omitnil_oneof.
    rewrite Hd, Hbad, Hst.
    destruct (validator.isOneOf "cleared uncleared" s) eqn:E; [|reflexivity].
    apply isOneOf_status in E as [?|?]; contradiction.
Qed.

(** *** Further properties: what a read returns *)

(** X6. [GetTransaction] checks the date of the transaction it decoded:
    the transaction is returned when its date is empty or a date of the
    calendar, and refused with the validator's error otherwise. Either way
    the request was sent once and the response validated once. *)
Theorem GetTransaction_checks_date (c : Client) (ctx : Ctx) (id : Z)
    (body : string) (resp : Transaction) :
  Get c ctx (Sprintf_d "/v1/transactions/" id) (Some ∅) = inl body →
  json.Decode store_Transaction zeroTransaction body = inl resp →
  GetTransaction c ctx id None
  = (if dateAccepted (Transaction_Date resp) then (Some resp, None)
     else (None,
           Some (ValidationErrors
                   [validator.fieldError "Transaction" "Date" "datetime"])),
     [EvGet ctx (Sprintf_d "/v1/transactions/" id) (Some ∅);
      EvValidate "Transaction"]).
Proof.
  intros HG HD. run. rewrite HG. simpl. rewrite HD. simpl.
  unfold rules_Transaction, validator.omitempty_datetime, dateAccepted.
  destruct (String.eqb (Transaction_Date resp) ""); simpl; [reflexivity|].
  destruct (validator.isDatetime (Transaction_Date resp)); reflexivity.
Qed.

(** X7. [GetTransactions] does not check the transactions of the list:
    whatever decodes is returned, dates included. *)
Theorem GetTransactions_returns_decoded (c : Client) (ctx : Ctx)
    (body : string) (resp : TransactionsResponse) :
  Get c ctx "/v1/transactions" (Some ∅) = inl body →
  json.Decode store_TransactionsResponse zeroTransactionsResponse body = inl resp →
  GetTransactions c ctx None
  = ((TransactionsResponse_Transactions resp, None),
     [EvGet ctx "/v1/transactions" (Some ∅); EvValidate "TransactionsResponse"]).
Proof. intros HG HD. run. rewrite HG. simpl. rewrite HD. reflexivity. Qed.

(** *** Further properties: requests *)

(** X8. No method sends more than one request, whatever its arguments and
    whatever the transport answers. *)
Theorem at_most_one_request (c : Client) (ctx : Ctx) (id : Z)
    (filters : option TransactionFilters) (ut : option UpdateTransaction)
    (crypto : option UpdateCrypto) :
  (length (httpCalls (trace (GetCrypto c ctx))) ≤ 1)%nat ∧
  (length (httpCalls (trace (UpdateManualCrypto c ctx id crypto))) ≤ 1)%nat ∧
  (length (httpCalls (trace (GetTransactions c ctx filters))) ≤ 1)%nat ∧
  (length (httpCalls (trace (GetTransaction c ctx id filters))) ≤ 1)%nat ∧
  (length (httpCalls (trace (Client_UpdateTransaction c ctx id ut))) ≤ 1)%nat.
Proof.
  split; [|split; [|split; [|split]]].
  - rewrite GetCrypto_sends_once. simpl. lia.
  - rewrite httpCalls_UpdateManualCrypto. destruct crypto; simpl; lia.
  - destruct filters as [f|].
    + rewrite (proj1 (GetTransactions_with_filters c ctx f)). simpl. lia.
    + rewrite GetTransactions_sends_once. simpl. lia.
  - destruct filters as [f|].
    + rewrite (proj1 (GetTransaction_with_filters c ctx id f)). simpl. lia.
    + rewrite GetTransaction_sends_once. simpl. lia.
  - rewrite httpCalls_UpdateTransaction.
    destruct (Struct _ _ ut); simpl; lia.
Qed.

(** X9. [Client.UpdateTransaction] sends its request exactly when the
    payload passes validation, and then it is one PUT to the path of the
    id that carries the payload of the caller, unchanged, inside an
    [UpdateRequest]. *)
Theorem UpdateTransaction_sends_iff_valid (c : Client) (ctx : Ctx) (id : Z)
    (ut : option UpdateTransaction) :
  httpCalls (trace (Client_UpdateTransaction c ctx id ut))
  = match Struct "UpdateTransaction" rules_UpdateTransaction ut with
    | None =>
        [EvPut ctx (Sprintf_d "/v1/transactions/" id)
           (PutUpdateRequest (mkUpdateRequest ut))]
    | Some _ => []
    end.
Proof. apply httpCalls_UpdateTransaction. Qed.

(** X10. The methods that return one record return a record or an error,
    never both and never neither; the methods that return a list never
    return a list together with an error. *)
Theorem record_or_error (c : Client) (ctx : Ctx) (id : Z)
    (filters : option TransactionFilters) (ut : option UpdateTransaction)
    (crypto : option UpdateCrypto) :
  one_is_nil (result (UpdateManualCrypto c ctx id crypto)) ∧
  one_is_nil (result (GetTransaction c ctx id filters)) ∧
  one_is_nil (result (Client_UpdateTransaction c ctx id ut)) ∧
  error_means_nil (result (GetCrypto c ctx)) ∧
  error_means_nil (result (GetTransactions c ctx filters)).
Proof.
  split; [|split; [|split; [|split]]].
  - destruct crypto; run; cases; exact I.
  - destruct filters; run; cases; exact I.
  - destruct ut; run; cases; exact I.
  - run; cases; try exact I. destruct (CryptoResponse_Crypto _); exact I.
  - destruct filters; run; cases; try exact I.
    destruct (TransactionsResponse_Transactions _); exact I.
Qed.

(** *** Further properties: the envelope of a list *)

(** X11. A response that is a JSON object without the key of the list
    (no member named [crypto], or [transactions], up to the case of the
    letters) is not an error: the method returns the nil list and the nil
    error. *)
Theorem list_key_missing (c : Client) (ctx : Ctx) (body : string)
    (members : list (string * json.value)) :
  json.readValue body = inl (json.JObject members) →
  (Get c ctx "/v1/crypto" (Some ∅) = inl body →
   (∀ key v, In (key, v) members → json.lookupField ["crypto"] key = None) →
   result (GetCrypto c ctx) = (None, None)) ∧
  (Get c ctx "/v1/transactions" (Some ∅) = inl body →
   (∀ key v, In (key, v) members → json.lookupField ["transactions"] key = None) →
   result (GetTransactions c ctx None) = (None, None)).
Proof.
  intros HR. split; intros HG Hk.
  - assert (json.Decode store_CryptoResponse zeroCryptoResponse body
            = inl zeroCryptoResponse) as HD.
    { unfold json.Decode. rewrite HR.
      unfold store_CryptoResponse, json.store_struct.
      by rewrite store_members_skip. }
    run. rewrite HG. simpl. rewrite HD. reflexivity.
  - assert (json.Decode store_TransactionsResponse zeroTransactionsResponse body
            = inl zeroTransactionsResponse) as HD.
    { unfold json.Decode. rewrite HR.
      unfold store_TransactionsResponse, json.store_struct.
      by rewrite store_members_skip. }
    run. rewrite HG. simpl. rewrite HD. reflexivity.
Qed.

Lemma store_ptr_nil {S A} (store : A → json.value → json.D S A) (zero : A)
    (cur : option A) (v : json.value) (st st' : json.dstate S)
    (a : option A) :
  json.store_ptr store zero cur v st = json.Stored a st' →
  (a = None ↔ v = json.JNull).
Proof.
  destruct v; simpl; unfold json.ret, json.bind;
    try (destruct (store _ _ st); intros [= <- <-]; split; discriminate).
  intros [= <- <-]. split; reflexivity.
Qed.

Lemma store_elems_ptr {S A} (store : A → json.value → json.D S A) (zero : A)
    (elems : list json.value) :
  ∀ cur (st : json.dstate S) l st',
    json.store_elems (json.store_ptr store zero) None cur elems st
      = json.Stored l st' →
    Forall2 (λ v x, x = None ↔ v = json.JNull) elems l.
Proof.
  induction elems as [|v elems IH]; intros cur saved l saved' H; simpl in H.
  - injection H as <- <-. constructor.
  - unfold json.bind at 1 in H.
    destruct (json.store_ptr store zero (hd None cur) v saved) as [a s1|e] eqn:E1;
      [|discriminate].
    unfold json.bind at 1 in H.
    destruct (json.store_elems _ _ (tl cur) elems s1) as [l' s2|e] eqn:E2;
      [|discriminate].
    injection H as <- <-. constructor.
    + by eapply store_ptr_nil.
    + by eapply IH.
Qed.

(** X12. [GetCrypto] returns one entry for each element of the array of
    the response, in order; the entry is nil exactly where the element is
    [null]. No element is dropped. *)
Theorem GetCrypto_one_entry_per_element (c : Client) (ctx : Ctx) (body : string)
    (elems : list json.value) (l : list (option Crypto)) :
  Get c ctx "/v1/crypto" (Some ∅) = inl body →
  json.readValue body = inl (json.JObject [("crypto", json.JArray elems)]) →
  result (GetCrypto c ctx) = (Some l, None) →
  Forall2 (λ v x, x = None ↔ v = json.JNull) elems l ∧
  length l = length elems.
Proof.
  intros HG HR. run. rewrite HG. simpl. unfold json.Decode. rewrite HR.
  unfold store_CryptoResponse, json.store_struct, json.store_members.
  change (json.lookupField ["crypto"] "crypto") with (Some "crypto").
  unfold storeField_CryptoResponse. simpl String.eqb. cbv iota.
  unfold json.bind at 1. unfold json.bind at 1.
  change (CryptoResponse_Crypto zeroCryptoResponse)
    with (@None (list (option Crypto))).
  rewrite store_slice_new by reflexivity.
  destruct (json.store_elems _ _ [] elems json.start) as [l' st|e] eqn:E;
    [|discriminate].
  unfold json.ret, json.finish. cbn [json.savedError].
  destruct (json.savedError st); simpl; [discriminate|]. intros [= <-].
  apply store_elems_ptr in E. split; [exact E|].
  symmetry. by eapply Forall2_length.
Qed.

(** X13. The path of a request determines the id: two ids with the same
    path are the same id, so an update is never sent to the path of
    another asset or transaction. *)
Theorem path_determines_id (c : Client) (ctx : Ctx) (id1 id2 : Z)
    (crypto : UpdateCrypto) :
  httpCalls (trace (UpdateManualCrypto c ctx id1 (Some crypto)))
    = httpCalls (trace (UpdateManualCrypto c ctx id2 (Some crypto))) →
  id1 = id2.
Proof.
  rewrite !httpCalls_UpdateManualCrypto. intros [= H].
  unfold Sprintf_d, Itoa in H. apply String.app_inj in H.
  by apply pretty_Z_inj in H.
Qed.

(** X14. A read without filters never fails with a validation error: every
    error of [GetCrypto], and of [GetTransactions] without filters, wraps
    its cause, under the name of the operation or under
    ["decode response: "]. *)
Theorem read_errors_wrap (c : Client) (ctx : Ctx) (e : error) :
  (snd (result (GetCrypto c ctx)) = Some e →
   ∃ cause, Unwrap e = Some cause ∧
     (HasPrefix (Error e) "get crypto: " = true ∨
      HasPrefix (Error e) "decode response: " = true)) ∧
  (snd (result (GetTransactions c ctx None)) = Some e →
   ∃ cause, Unwrap e = Some cause ∧
     (HasPrefix (Error e) "get transactions: " = true ∨
      HasPrefix (Error e) "decode response: " = true)).
Proof.
  split; run; cases; intros H; simplify_eq;
    eexists; (split; [reflexivity|]);
    solve [left; reflexivity | right; reflexivity].
Qed.

(** X15. No read ever sends query parameters: every GET that
    [GetCrypto], [GetTransactions] or [GetTransaction] issues, with or
    without filters, carries the empty map of options. *)
Theorem reads_send_no_parameters (c : Client) (ctx : Ctx) (id : Z)
    (filters : option TransactionFilters) (e : Event) :
  In e (trace (GetCrypto c ctx)) ∨
  In e (trace (GetTransactions c ctx filters)) ∨
  In e (trace (GetTransaction c ctx id filters)) →
  ∀ ctx' path options, e = EvGet ctx' path options → options = Some ∅.
Proof.
  intros H ctx' path options ->. revert H.
  destruct filters; run; cases; simpl;
    intros [H|[H|H]];
    repeat (destruct H as [H|H]; [try discriminate; by injection H|]);
    contradiction.
Qed.

(** X16. An identifier of a crypto asset has to be [null] or an integer
    of the range of [int]: a response to [UpdateManualCrypto] that is an
    object with a member for [id] or for [zabo_account_id] whose value is
    anything else (a string, a fraction, a number out of range) is
    refused as a failure to decode, whatever its other members are. *)
Theorem identifier_must_be_integer (c : Client) (ctx : Ctx) (id : Z)
    (crypto : UpdateCrypto) (body : string)
    (members : list (string * json.value)) (key name : string) (v : json.value) :
  Put c ctx (Sprintf_d "/v1/crypto/manual/" id) (PutUpdateCrypto (Some crypto))
    = inl body →
  json.readValue body = inl (json.JObject members) →
  In (key, v) members →
  json.lookupField fields_Crypto key = Some name →
  name = "id" ∨ name = "zabo_account_id" →
  ¬ sentIdentifier v →
  ∃ cause,
    json.Decode store_Crypto zeroCrypto body = inr cause ∧
    UpdateManualCrypto c ctx id (Some crypto)
      = ((None, Some (Errorf_w "decode response: " cause)),
         [EvValidate "UpdateCrypto";
          EvPut ctx (Sprintf_d "/v1/crypto/manual/" id)
            (PutUpdateCrypto (Some crypto))]).
Proof.
  intros HP HR Hin Hk Hn Hv.
  destruct (json.Decode store_Crypto zeroCrypto body) as [r|cause] eqn:HD.
  - exfalso. apply Hv.
    destruct (Decode_Crypto body _ r HR HD) as (_ & _ & Hall).
    by apply (Hall key v name).
  - exists cause. split; [reflexivity|].
    run. rewrite HP. simpl. rewrite HD. reflexivity.
Qed.

(** *** Further properties: the dates the validator accepts *)

Lemma is_digit_bounds (c : ascii) :
  is_digit c = true → 0 ≤ digit_val c ≤ 9.
Proof.
  unfold is_digit, digit_val. intros H.
  apply andb_true_iff in H as [H1 H2].
  apply Z.leb_le in H1. apply Z.leb_le in H2. lia.
Qed.

Lemma is_digit_not (c d : ascii) :
  is_digit c = true → is_digit d = false → Ascii.eqb c d = false.
Proof.
  intros Hc Hd. destruct (Ascii.eqb c d) eqn:E; [|reflexivity].
  apply Ascii.eqb_eq in E. congruence.
Qed.

Lemma leadingInt_step (x : Z) (c : ascii) (s : string) :
  is_digit c = true → 0 ≤ x ≤ 1000000 →
  time.leadingInt x (String c s) = time.leadingInt (x * 10 + digit_val c) s.
Proof.
  intros Hc Hx. pose proof (is_digit_bounds c Hc) as Hb.
  simpl. rewrite Hc.
  destruct (Z.ltb_spec (2 ^ 63 / 10) x) as [H|_].
  - assert (2 ^ 63 / 10 = 922337203685477580) as E by reflexivity. lia.
  - destruct (Z.ltb_spec (2 ^ 63) (x * 10 + digit_val c)) as [H|_]; [|reflexivity].
    assert (2 ^ 63 = 9223372036854775808) as E by reflexivity. lia.
Qed.

Lemma atoi_year (y1 y2 y3 y4 : ascii) :
  is_digit y1 = true → is_digit y2 = true →
  is_digit y3 = true → is_digit y4 = true →
  time.atoi (String y1 (String y2 (String y3 (String y4 ""))))
  = Some (((digit_val y1 * 10 + digit_val y2) * 10 + digit_val y3) * 10
          + digit_val y4).
Proof.
  intros H1 H2 H3 H4.
  pose proof (is_digit_bounds _ H1). pose proof (is_digit_bounds _ H2).
  pose proof (is_digit_bounds _ H3). pose proof (is_digit_bounds _ H4).
  unfold time.atoi.
  rewrite (is_digit_not y1 "-" H1 eq_refl), (is_digit_not y1 "+" H1 eq_refl).
  rewrite leadingInt_step by (assumption || lia).
  rewrite leadingInt_step by (assumption || lia).
  rewrite leadingInt_step by (assumption || lia).
  rewrite leadingInt_step by (assumption || lia).
  reflexivity.
Qed.

Lemma getnum_two (a b : ascii) (r : string) :
  is_digit a = true → is_digit b = true →
  time.getnum (String a (String b r)) true = Some (digit_val a * 10 + digit_val b, r).
Proof.
  intros Ha Hb. unfold time.getnum, time.isDigit. simpl. by rewrite Ha, Hb.
Qed.

Lemma checkedDate_shape (s : string) :
  checkedDate s = true → is_YYYY_MM_DD s = true.
Proof.
  unfold checkedDate.
  destruct s as [|y1 [|y2 [|y3 [|y4 [|h1 [|m1 [|m2 [|h2 [|d1 [|d2 [|]]]]]]]]]]];
    try discriminate.
  intros H. do 4 (apply andb_true_iff in H as [H _]). exact H.
Qed.

#[local] Opaque time.daysIn time.atoi time.getnum.

Lemma Parse_checked (s : string) :
  is_YYYY_MM_DD s = true →
  validator.isDatetime s = checkedDate s.
Proof.
  intros Hshape. unfold checkedDate. rewrite Hshape. revert Hshape.
  destruct s as [|y1 [|y2 [|y3 [|y4 [|h1 [|m1 [|m2 [|h2 [|d1 [|d2 [|]]]]]]]]]]];
    try discriminate.
  intros H. unfold is_YYYY_MM_DD in H.
  apply andb_true_iff in H as [H Hd2]. apply andb_true_iff in H as [H Hd1].
  apply andb_true_iff in H as [H Hh2]. apply andb_true_iff in H as [H Hm2].
  apply andb_true_iff in H as [H Hm1]. apply andb_true_iff in H as [H Hh1].
  apply andb_true_iff in H as [H Hy4]. apply andb_true_iff in H as [H Hy3].
  apply andb_true_iff in H as [H Hy2].
  apply Ascii.eqb_eq in Hh1, Hh2. subst h1 h2.
  unfold validator.isDatetime, time.Parse_2006_01_02.
  change (String.length _ <? 4)%nat with false.
  change (time.isDigit (String y1 _) 0) with (is_digit y1).
  change (substring 0 4 _) with (String y1 (String y2 (String y3 (String y4 "")))).
  change (substring 4 _ _)
    with (String "-" (String m1 (String m2 (String "-" (String d1 (String d2 "")))))).
  rewrite H. simpl.
  rewrite atoi_year by assumption. simpl.
  rewrite getnum_two by assumption. simpl.
  set (year := ((digit_val y1 * 10 + digit_val y2) * 10 + digit_val y3) * 10
               + digit_val y4).
  set (month := digit_val m1 * 10 + digit_val m2).
  set (day := digit_val d1 * 10 + digit_val d2).
  destruct (Z.leb_spec month 0), (Z.ltb_spec 12 month),
    (Z.leb_spec 1 month), (Z.leb_spec month 12); try lia; simpl;
    try reflexivity.
  rewrite getnum_two by assumption. simpl.
  fold day.
  destruct (Z.ltb_spec day 1), (Z.ltb_spec (time.daysIn month year) day),
    (Z.leb_spec 1 day), (Z.leb_spec day (time.daysIn month year));
    try lia; reflexivity.
Qed.

#[local] Transparent time.daysIn time.atoi time.getnum.

Lemma isDatetime_checked (s : string) :
  validator.isDatetime s = checkedDate s.
Proof.
  destruct (is_YYYY_MM_DD s) eqn:E; [by apply Parse_checked|].
  rewrite (isDatetime_shape s E).
  destruct (checkedDate s) eqn:C; [|reflexivity].
  apply checkedDate_shape in C. congruence.
Qed.

Lemma isLeap_leapYear (y : Z) : time.isLeap y = true ↔ leapYear y.
Proof.
  unfold time.isLeap, leapYear.
  rewrite andb_true_iff, orb_true_iff, negb_true_iff, !Z.eqb_eq, Z.eqb_neq.
  rewrite <- !Z.mod_divide by lia. reflexivity.
Qed.

(** The bit formula of [daysIn] gives the month lengths of the calendar. *)
Lemma daysIn_dayOfMonth (y m d : Z) :
  1 ≤ m ≤ 12 → 1 ≤ d ≤ 99 →
  (d ≤ time.daysIn m y ↔ dayOfMonth y m d).
Proof.
  intros Hm Hd. unfold dayOfMonth, time.daysIn, time.February.
  assert (m = 1 ∨ m = 2 ∨ m = 3 ∨ m = 4 ∨ m = 5 ∨ m = 6 ∨ m = 7 ∨ m = 8 ∨
          m = 9 ∨ m = 10 ∨ m = 11 ∨ m = 12) as Hcases by lia.
  destruct Hcases as [->|[->|[->|[->|[->|[->|[->|[->|[->|[->|[->| ->]]]]]]]]]]];
    cbn [Z.eqb Pos.eqb commonYearDays];
    try match goal with
        | |- context [Z.land ?a ?b] =>
            let n := eval vm_compute in (Z.land a b) in
            change (Z.land a b) with n;
            split; [intros ?; split; [lia|left; lia] | intros [_ [?|?]]; lia]
        end.
  destruct (time.isLeap y) eqn:E.
  - apply isLeap_leapYear in E. split.
    + intros ?. split; [lia|].
      destruct (decide (d = 29)) as [->|]; [right; exact (conj eq_refl (conj eq_refl E)) | left; lia].
    + intros [_ [?|?]]; lia.
  - split.
    + intros ?. split; [lia | left; lia].
    + intros [_ [?|(_ & _ & L)]]; [lia|].
      apply isLeap_leapYear in L. congruence.
Qed.

Lemma commonYearDays_month (m : Z) : 1 ≤ commonYearDays m → 1 ≤ m ≤ 12.
Proof.
  destruct m as [|p|p]; simpl; try lia.
  do 4 (try destruct p as [p|p|]; simpl; try lia).
Qed.

(** X17. The dates the tag [datetime=2006-01-02] accepts are exactly the
    dates of the Gregorian calendar written YYYY-MM-DD: ten bytes, digits
    and hyphens in their places, that spell a day which the month has in
    that year. *)
Theorem isDatetime_calendar (s : string) :
  validator.isDatetime s = true ↔ calendarDate s.
Proof.
  rewrite isDatetime_checked. split.
  - intros H. pose proof (checkedDate_shape s H) as Hshape. revert H Hshape.
    unfold checkedDate.
    destruct s as [|y1 [|y2 [|y3 [|y4 [|h1 [|m1 [|m2 [|h2 [|d1 [|d2 [|]]]]]]]]]]];
      try discriminate.
    intros H Hshape. rewrite Hshape in H. unfold is_YYYY_MM_DD in Hshape.
    apply andb_true_iff in Hshape as [Hs Hd2]. apply andb_true_iff in Hs as [Hs Hd1].
    apply andb_true_iff in Hs as [Hs Hh2]. apply andb_true_iff in Hs as [Hs Hm2].
    apply andb_true_iff in Hs as [Hs Hm1]. apply andb_true_iff in Hs as [Hs Hh1].
    apply andb_true_iff in Hs as [Hs Hy4]. apply andb_true_iff in Hs as [Hs Hy3].
    apply andb_true_iff in Hs as [Hy1 Hy2].
    apply Ascii.eqb_eq in Hh1, Hh2. subst h1 h2.
    simpl in H.
    apply andb_true_iff in H as [H Hday]. apply andb_true_iff in H as [H Hd].
    apply andb_true_iff in H as [Hm Hm'].
    apply Z.leb_le in Hday, Hd, Hm, Hm'.
    pose proof (is_digit_bounds _ Hd1). pose proof (is_digit_bounds _ Hd2).
    exists y1, y2, y3, y4, m1, m2, d1, d2. split; [reflexivity|]. split.
    + repeat constructor; assumption.
    + apply daysIn_dayOfMonth; [lia | lia | exact Hday].
  - intros (y1 & y2 & y3 & y4 & m1 & m2 & d1 & d2 & -> & Hdig & Hday).
    repeat match goal with
           | H : Forall _ (_ :: _) |- _ => apply Forall_cons in H as [? H]
           end.
    pose proof (is_digit_bounds m1 ltac:(assumption)).
    pose proof (is_digit_bounds m2 ltac:(assumption)).
    pose proof (is_digit_bounds d1 ltac:(assumption)).
    pose proof (is_digit_bounds d2 ltac:(assumption)).
    assert (1 ≤ digit_val m1 * 10 + digit_val m2 ≤ 12) as Hm.
    { destruct Hday as [Hd1 [Hle|(Hm & _)]]; [|lia].
      apply commonYearDays_month. lia. }
    assert (1 ≤ digit_val d1 * 10 + digit_val d2) as Hd by apply Hday.
    apply daysIn_dayOfMonth in Hday; [|lia|lia].
    unfold checkedDate, is_YYYY_MM_DD.
    repeat match goal with H : is_digit _ = true |- _ => rewrite H; clear H end.
    simpl.
    repeat (apply andb_true_iff; split); apply Z.leb_le; lia.
Qed.

End Properties.

(** ** The properties at concrete inputs *)

#[local] Existing Instance textEnv.

(** C4 at the date of the scenario, ["02/10/2021"]. *)
Lemma UpdateTransaction_malformed_date_witness :
  let ut := mkUpdateTransaction (Some "02/10/2021") None None None None None None
              None None in
  let c := @constClient textEnv (inl (jsonText "{'updated': true}")) in
  UpdateTransaction_Date ut = Some "02/10/2021" ∧
  is_YYYY_MM_DD "02/10/2021" = false ∧
  ∃ errs,
    Struct "UpdateTransaction" rules_UpdateTransaction (Some ut)
      = Some (ValidationErrors errs) ∧
    hd_error errs = Some (validator.fieldError "UpdateTransaction" "Date" "datetime") ∧
    result (Client_UpdateTransaction c () 1 (Some ut))
      = (None, Some (ValidationErrors errs)) ∧
    Unwrap (ValidationErrors errs) = None ∧
    trace (Client_UpdateTransaction c () 1 (Some ut))
      = [EvValidate "UpdateTransaction"] ∧
    httpCalls (trace (Client_UpdateTransaction c () 1 (Some ut))) = [].
Proof.
  intros ut c. split; [reflexivity|]. split; [reflexivity|].
  apply (@UpdateTransaction_malformed_date textEnv c () 1 ut "02/10/2021");
    reflexivity.
Defined.

(** C5 at a server that answers HTTP 401 to every request. *)
Lemma transport_error_is_wrapped_witness :
  let c := @constClient textEnv (inr unauthorized) in
  let ut := Some zeroUpdateTransaction in
  (Get c () "/v1/crypto" (Some ∅) = inr unauthorized ∧
   Put c () (Sprintf_d "/v1/crypto/manual/" 152) (PutUpdateCrypto (Some zeroUpdateCrypto))
     = inr unauthorized ∧
   Get c () "/v1/transactions" (Some ∅) = inr unauthorized ∧
   Get c () (Sprintf_d "/v1/transactions/" 152) (Some ∅) = inr unauthorized ∧
   Struct "UpdateTransaction" rules_UpdateTransaction ut = None ∧
   Put c () (Sprintf_d "/v1/transactions/" 152) (PutUpdateRequest (mkUpdateRequest ut))
     = inr unauthorized) ∧
  sends_and_fails (EvGet () "/v1/crypto" (Some ∅)) "get crypto: " unauthorized
    (GetCrypto c ()) ∧
  sends_and_fails
    (EvPut () "/v1/crypto/manual/152" (PutUpdateCrypto (Some zeroUpdateCrypto)))
    "put crypto 152: " unauthorized
    (UpdateManualCrypto c () 152 (Some zeroUpdateCrypto)) ∧
  sends_and_fails (EvGet () "/v1/transactions" (Some ∅)) "get transactions: "
    unauthorized (GetTransactions c () None) ∧
  sends_and_fails (EvGet () "/v1/transactions/152" (Some ∅)) "get transaction 152: "
    unauthorized (GetTransaction c () 152 None) ∧
  sends_and_fails
    (EvPut () "/v1/transactions/152" (PutUpdateRequest (mkUpdateRequest ut)))
    "update transaction 152: " unauthorized
    (Client_UpdateTransaction c () 152 ut).
Proof.
  intros c ut.
  destruct (@transport_error_is_wrapped textEnv c () 152 zeroUpdateCrypto ut
              unauthorized None None)
    as (H1 & H2 & H3 & H4 & H5 & _).
  split; [repeat split|].
  split; [exact (H1 eq_refl)|]. split; [exact (H2 eq_refl)|].
  split; [exact (H3 eq_refl)|]. split; [exact (H4 eq_refl)|].
  exact (H5 eq_refl eq_refl).
Defined.

(** C6 at the truncated body of crypto_test.go, answered to every
    request. *)
Lemma decode_error_is_wrapped_witness :
  let c := @constClient textEnv (inl truncated) in
  let ut := Some zeroUpdateTransaction in
  (Get c () "/v1/crypto" (Some ∅) = inl truncated ∧
   Put c () (Sprintf_d "/v1/crypto/manual/" 152) (PutUpdateCrypto (Some zeroUpdateCrypto))
     = inl truncated ∧
   Get c () "/v1/transactions" (Some ∅) = inl truncated ∧
   Get c () (Sprintf_d "/v1/transactions/" 152) (Some ∅) = inl truncated ∧
   Struct "UpdateTransaction" rules_UpdateTransaction ut = None ∧
   Put c () (Sprintf_d "/v1/transactions/" 152) (PutUpdateRequest (mkUpdateRequest ut))
     = inl truncated) ∧
  (json.Decode store_CryptoResponse zeroCryptoResponse truncated
     = inr io_ErrUnexpectedEOF ∧
   json.Decode store_Crypto zeroCrypto truncated = inr io_ErrUnexpectedEOF ∧
   json.Decode store_TransactionsResponse zeroTransactionsResponse truncated
     = inr io_ErrUnexpectedEOF ∧
   json.Decode store_Transaction zeroTransaction truncated = inr io_ErrUnexpectedEOF ∧
   json.Decode store_UpdateTransactionResp zeroUpdateTransactionResp truncated
     = inr io_ErrUnexpectedEOF) ∧
  sends_and_fails (EvGet () "/v1/crypto" (Some ∅)) "decode response: "
    io_ErrUnexpectedEOF (GetCrypto c ()) ∧
  sends_and_fails
    (EvPut () "/v1/crypto/manual/152" (PutUpdateCrypto (Some zeroUpdateCrypto)))
    "decode response: " io_ErrUnexpectedEOF
    (UpdateManualCrypto c () 152 (Some zeroUpdateCrypto)) ∧
  sends_and_fails (EvGet () "/v1/transactions" (Some ∅)) "decode response: "
    io_ErrUnexpectedEOF (GetTransactions c () None) ∧
  sends_and_fails (EvGet () "/v1/transactions/152" (Some ∅)) "decode response: "
    io_ErrUnexpectedEOF (GetTransaction c () 152 None) ∧
  sends_and_fails
    (EvPut () "/v1/transactions/152" (PutUpdateRequest (mkUpdateRequest ut)))
    "decode response: " io_ErrUnexpectedEOF
    (Client_UpdateTransaction c () 152 ut).
Proof.
  intros c ut.
  destruct (@decode_error_is_wrapped textEnv c () 152 zeroUpdateCrypto ut
              truncated io_ErrUnexpectedEOF None None)
    as (H1 & H2 & H3 & H4 & H5 & _).
  split; [repeat split|]. split; [repeat split|].
  split; [exact (H1 eq_refl eq_refl)|]. split; [exact (H2 eq_refl eq_refl)|].
  split; [exact (H3 eq_refl eq_refl)|]. split; [exact (H4 eq_refl eq_refl)|].
  exact (H5 eq_refl eq_refl eq_refl).
Defined.

(** C7 at a server that answers the empty list. *)
Lemma GetCrypto_empty_list_witness :
  let c := @constClient textEnv (inl (jsonText "{'crypto': []}")) in
  Get c () "/v1/crypto" (Some ∅) = inl (jsonText "{'crypto': []}") ∧
  result (GetCrypto c ()) = (Some [], None).
Proof.
  intros c. split; [reflexivity|].
  apply (@GetCrypto_empty_list textEnv c ()). reflexivity.
Defined.

(** C8 at the records of TestCryptoParsedAmount, with a table that lists
    neither ticker. *)
Lemma ParsedAmount_scenario_witness :
  let btc := @mkCrypto textEnv None None "" "" None "1.5" "" "BTC" "" None "" None in
  let eth := @mkCrypto textEnv None None "" "" None "invalid" "" "ETH" "" None "" None in
  (Crypto_Balance btc = "1.5" ∧ Crypto_Currency btc = "BTC" ∧
   Crypto_Balance eth = "invalid" ∧ Crypto_Currency eth = "ETH") ∧
  (∃ m, Currency.Crypto_ParsedAmount Currency.isoSample Currency.lenient btc
          = (Some m, None) ∧
        Currency.currencyCode m = "BTC") ∧
  Currency.Crypto_ParsedAmount Currency.isoSample Currency.lenient eth
    = (None, Some ErrMalformedAmount).
Proof.
  intros btc eth. split; [repeat split|].
  apply (@ParsedAmount_scenario textEnv Currency.isoSample btc eth); reflexivity.
Defined.

(** C9, as amended, at a list response that names both identifiers, and at
    an update response that names [id] twice, the second time as
    [null]. *)
Lemma Crypto_identifiers_as_sent_witness :
  let c := @constClient textEnv (inl bothIdentifiers) in
  let r := @mkCrypto textEnv (Some 152) (Some 544) "manual" "" None "" zeroTime ""
             "" None zeroTime None in
  let elems := [json.JObject [("id", json.JNumber "152");
                              ("zabo_account_id", json.JNumber "544");
                              ("source", json.JString "manual")]] in
  let body := jsonText "{'id': 5, 'ID': null, 'zabo_account_id': 544, 'source': 'synced'}" in
  let c' := @constClient textEnv (inl body) in
  let v := json.JObject [("id", json.JNumber "5"); ("ID", json.JNull);
                         ("zabo_account_id", json.JNumber "544");
                         ("source", json.JString "synced")] in
  let r' := @mkCrypto textEnv None (Some 544) "synced" "" None "" zeroTime ""
              "" None zeroTime None in
  (Get c () "/v1/crypto" (Some ∅) = inl bothIdentifiers ∧
   json.readValue bothIdentifiers
     = inl (json.JObject [("crypto", json.JArray elems)]) ∧
   singleMember ["crypto"] [("crypto", json.JArray elems)] (json.JArray elems) ∧
   json.Decode store_CryptoResponse zeroCryptoResponse bothIdentifiers
     = inl (mkCryptoResponse (Some [Some r])) ∧
   result (GetCrypto c ()) = (Some [Some r], None) ∧
   Forall2 entryOf elems [Some r]) ∧
  (Put c' () (Sprintf_d "/v1/crypto/manual/" 152)
     (PutUpdateCrypto (Some zeroUpdateCrypto)) = inl body ∧
   json.readValue body = inl v ∧
   json.Decode store_Crypto zeroCrypto body = inl r' ∧
   result (UpdateManualCrypto c' () 152 (Some zeroUpdateCrypto)) = (Some r', None) ∧
   Crypto_ID r' = sentAs "id" v ∧
   Crypto_ZaboAccountID r' = sentAs "zabo_account_id" v).
Proof.
  intros c r elems body c' v r'.
  destruct (@Crypto_identifiers_as_sent textEnv c () 152 zeroUpdateCrypto
              bothIdentifiers) as (H1 & _ & _ & H4).
  destruct (@Crypto_identifiers_as_sent textEnv c' () 152 zeroUpdateCrypto body)
    as (_ & H2 & H3 & _).
  assert (singleMember ["crypto"] [("crypto", json.JArray elems)] (json.JArray elems))
    as Hs.
  { exists [], "crypto", []. split; [reflexivity|].
    split; [by eexists | intros ? ? []]. }
  split.
  - split; [reflexivity|]. split; [reflexivity|]. split; [exact Hs|].
    split; [reflexivity|].
    split; [exact (H1 _ eq_refl eq_refl)
           | exact (H4 _ elems [Some r] eq_refl Hs eq_refl)].
  - split; [reflexivity|]. split; [reflexivity|]. split; [reflexivity|].
    split; [exact (H2 r' eq_refl eq_refl) | exact (H3 v r' eq_refl eq_refl)].
Defined.



(** C9, as the specification states it, fails: [GetCrypto] returns a record
    of source [manual] that has both identifiers. *)
Lemma GetCrypto_returns_both_identifiers :
  match result (@GetCrypto textEnv (constClient (inl bothIdentifiers)) ()) with
  | (Some [Some r], None) =>
      Crypto_Source r = "manual" ∧
      Crypto_ID r = Some 152 ∧
      Crypto_ZaboAccountID r = Some 544
  | _ => False
  end.
Proof. repeat split. Qed.

(** C10, as the specification states it, fails: the update with every field
    absent passes validation and is sent. *)
Lemma empty_update_is_sent :
  let run := @Client_UpdateTransaction textEnv (constClient (inl (jsonText "{'updated': true}")))
               () 1 (Some zeroUpdateTransaction) in
  Struct "UpdateTransaction" rules_UpdateTransaction (Some zeroUpdateTransaction) = None ∧
  httpCalls (trace run)
    = [EvPut () "/v1/transactions/1"
         (PutUpdateRequest (mkUpdateRequest (Some zeroUpdateTransaction)))] ∧
  result run = (Some (mkUpdateTransactionResp true None), None).
Proof. repeat split. Qed.

(** *** The cases of crypto_test.go *)

Example TestGetCrypto_mixed :
  result (GetCrypto
    (constClient (inl (jsonText
      "{ 'crypto': [
           { 'zabo_account_id': 544, 'source': 'synced',
             'created_at': '2020-07-27T11:53:02.722Z', 'name': 'Dogecoin',
             'display_name': null, 'balance': '1.902383849000000000',
             'balance_as_of': '2021-05-21T00:05:36.000Z', 'currency': 'doge',
             'status': 'active', 'institution_name': 'MetaMask', 'to_base': 0.25 },
           { 'id': 152, 'source': 'manual',
             'created_at': '2021-04-03T04:16:48.230Z', 'name': 'Ether',
             'display_name': 'BlockFi - ETH', 'balance': '5.391445130000000000',
             'balance_as_of': '2021-05-20T16:57:00.000Z', 'currency': 'ETH',
             'status': 'active', 'institution_name': 'BlockFi',
             'to_base': 12000.50 } ] }"))) ())
  = (Some
       [Some (mkCrypto None (Some 544) "synced" "Dogecoin" None
                "1.902383849000000000" "2021-05-21T00:05:36.000Z" "doge" "active"
                (Some "MetaMask") "2020-07-27T11:53:02.722Z" (Some "0.25"));
        Some (mkCrypto (Some 152) None "manual" "Ether" (Some "BlockFi - ETH")
                "5.391445130000000000" "2021-05-20T16:57:00.000Z" "ETH" "active"
                (Some "BlockFi") "2021-04-03T04:16:48.230Z" (Some "12000.50"))],
     None).
Proof. reflexivity. Qed.

Example TestGetCrypto_http_error :
  match result (GetCrypto (constClient (inr unauthorized)) ()) with
  | (None, Some err) => Contains (Error err) "get crypto" = true
  | _ => False
  end.
Proof. reflexivity. Qed.

Example TestGetCrypto_invalid_json :
  match result (GetCrypto (constClient (inl truncated)) ()) with
  | (None, Some err) => Contains (Error err) "decode response" = true
  | _ => False
  end.
Proof. reflexivity. Qed.

Example TestUpdateManualCrypto_success :
  UpdateManualCrypto
    (constClient (inl (jsonText
      "{ 'id': 152, 'source': 'manual', 'created_at': '2021-02-10T05:57:34.305Z',
         'name': 'Ethereum', 'display_name': 'Updated ETH',
         'balance': '10.000000000000000000',
         'balance_as_of': '2021-05-20T16:57:00.000Z', 'currency': 'ETH',
         'status': 'active', 'institution_name': null, 'to_base': 25000.0 }")))
    () 152
    (Some (mkUpdateCrypto (Some "Ethereum") (Some "Updated ETH") None (Some "10.0") None))
  = ((Some (mkCrypto (Some 152) None "manual" "Ethereum" (Some "Updated ETH")
              "10.000000000000000000" "2021-05-20T16:57:00.000Z" "ETH" "active"
              None "2021-02-10T05:57:34.305Z" (Some "25000.0")),
      None),
     [EvValidate "UpdateCrypto";
      EvPut () "/v1/crypto/manual/152"
        (PutUpdateCrypto
           (Some (mkUpdateCrypto (Some "Ethereum") (Some "Updated ETH") None
                    (Some "10.0") None)))]).
Proof. reflexivity. Qed.

Example TestUpdateManualCrypto_http_error :
  match result (UpdateManualCrypto (constClient (inr unauthorized)) () 152
                  (Some (mkUpdateCrypto (Some "Bitcoin") None None None None))) with
  | (None, Some err) => Contains (Error err) "put crypto" = true
  | _ => False
  end.
Proof. reflexivity. Qed.

(** A list key that comes again is read into the slice that the earlier
    one left: the third list below is stored into the backing array of the
    first, whose second record the second list had cut off but not
    erased. *)
Example repeated_list_key :
  result (GetCrypto
    (constClient (inl (jsonText
      "{'crypto': [{'id': 1}, {'id': 2}], 'crypto': [{'id': 3}],
        'crypto': [{'name': 'a'}, {'name': 'b'}]}"))) ())
  = (Some
       [Some (mkCrypto (Some 3) None "" "a" None "" zeroTime "" "" None zeroTime None);
        Some (mkCrypto (Some 2) None "" "b" None "" zeroTime "" "" None zeroTime None)],
     None).
Proof. reflexivity. Qed.

Example repeated_split_key :
  json.Decode store_UpdateTransactionResp zeroUpdateTransactionResp
    (jsonText "{'split': [1, 2], 'split': [3], 'split': [4, null, null]}")
  = inl (mkUpdateTransactionResp false (Some [4; 2; 0])).
Proof. reflexivity. Qed.

(** The byte that the scanner refuses, and what it was reading. *)
Example syntax_errors :
  json.readValue (jsonText "{'a': tru }")
    = inr (SyntaxError " " "in literal true (expecting 'e')") ∧
  json.readValue (jsonText "{'a' 1}") = inr (SyntaxError "1" "after object key") ∧
  json.readValue (jsonText "[1 2]") = inr (SyntaxError "2" "after array element") ∧
  json.readValue (jsonText "{'a': 1.x}")
    = inr (SyntaxError "x" "after decimal point in numeric literal") ∧
  json.readValue "?" = inr (SyntaxError "?" "looking for beginning of value") ∧
  Error (SyntaxError "?" "looking for beginning of value")
    = "invalid character '?' looking for beginning of value".
Proof. repeat split. Qed.

(** A list response is not looked into by the validator, a single
    transaction is. *)
Example GetTransactions_date_unchecked :
  result (GetTransactions
            (constClient (inl (jsonText "{'transactions': [{'id': 5, 'date': '02/10/2021'}]}")))
            () None)
  = (Some [Some (mkTransaction 5 "02/10/2021" "" "" "" "" 0 0 0 0 "" false 0 0 0)], None).
Proof. reflexivity. Qed.

Example GetTransaction_date_checked :
  result (GetTransaction (constClient (inl (jsonText "{'id': 5, 'date': '02/10/2021'}")))
            () 5 None)
  = (None, Some (ValidationErrors [validator.fieldError "Transaction" "Date" "datetime"])).
Proof. reflexivity. Qed.

(** ** The further properties at concrete inputs *)

(** X5 at filters with two bad dates and at an update with a bad date and
    a bad status. *)
Lemma validation_accumulates_witness :
  let f := mkTransactionFilters 0 0 0 0 0 0 0 "01/02/2021" "2021-02-30" false in
  let ut := mkUpdateTransaction (Some "02/10/2021") None None None None None None
              (Some "Cleared") None in
  (dateAccepted (StartDate f) = false ∧ dateAccepted (EndDate f) = false ∧
   validator.isDatetime "02/10/2021" = false) ∧
  Struct "TransactionFilters" rules_TransactionFilters (Some f)
    = Some (ValidationErrors
              [validator.fieldError "TransactionFilters" "StartDate" "datetime";
               validator.fieldError "TransactionFilters" "EndDate" "datetime"]) ∧
  Struct "UpdateTransaction" rules_UpdateTransaction (Some ut)
    = Some (ValidationErrors
              [validator.fieldError "UpdateTransaction" "Date" "datetime";
               validator.fieldError "UpdateTransaction" "Status" "oneof"]).
Proof.
  intros f ut. split; [repeat split|].
  apply (validation_accumulates f ut "02/10/2021" "Cleared");
    try reflexivity; discriminate.
Defined.

(** X6 at a transaction dated 30 February. *)
Lemma GetTransaction_checks_date_witness :
  let body := jsonText "{'id': 9, 'date': '2021-02-30', 'payee': 'Shop'}" in
  let c := @constClient textEnv (inl body) in
  let resp := mkTransaction 9 "2021-02-30" "Shop" "" "" "" 0 0 0 0 "" false 0 0 0 in
  (Get c () (Sprintf_d "/v1/transactions/" 9) (Some ∅) = inl body ∧
   json.Decode store_Transaction zeroTransaction body = inl resp) ∧
  GetTransaction c () 9 None
  = ((None,
      Some (ValidationErrors [validator.fieldError "Transaction" "Date" "datetime"])),
     [EvGet () "/v1/transactions/9" (Some ∅); EvValidate "Transaction"]).
Proof.
  intros body c resp. split; [split; reflexivity|].
  exact (@GetTransaction_checks_date textEnv c () 9 body resp eq_refl eq_refl).
Defined.

(** X7 at a list that holds the same transaction. *)
Lemma GetTransactions_returns_decoded_witness :
  let body := jsonText "{'transactions': [{'id': 9, 'date': '2021-02-30'}]}" in
  let c := @constClient textEnv (inl body) in
  let t := mkTransaction 9 "2021-02-30" "" "" "" "" 0 0 0 0 "" false 0 0 0 in
  (Get c () "/v1/transactions" (Some ∅) = inl body ∧
   json.Decode store_TransactionsResponse zeroTransactionsResponse body
     = inl (mkTransactionsResponse (Some [Some t]))) ∧
  GetTransactions c () None
  = ((Some [Some t], None),
     [EvGet () "/v1/transactions" (Some ∅); EvValidate "TransactionsResponse"]).
Proof.
  intros body c t. split; [split; reflexivity|].
  exact (@GetTransactions_returns_decoded textEnv c () body
           (mkTransactionsResponse (Some [Some t])) eq_refl eq_refl).
Defined.

(** X11 at the error envelope of the server. *)
Lemma list_key_missing_witness :
  let body := jsonText "{'error': 'Unauthorized', 'name': 'x'}" in
  let c := @constClient textEnv (inl body) in
  let members := [("error", json.JString "Unauthorized"); ("name", json.JString "x")] in
  (json.readValue body = inl (json.JObject members) ∧
   Get c () "/v1/crypto" (Some ∅) = inl body ∧
   ∀ key v, In (key, v) members → json.lookupField ["crypto"] key = None) ∧
  result (GetCrypto c ()) = (None, None) ∧
  result (GetTransactions c () None) = (None, None).
Proof.
  intros body c members.
  assert (∀ fields, fields = ["crypto"] ∨ fields = ["transactions"] →
            ∀ key v, In (key, v) members → json.lookupField fields key = None)
    as Hk.
  { intros fields Hf key v [[= <- <-]|[[= <- <-]|[]]];
      destruct Hf as [-> | ->]; reflexivity. }
  destruct (@list_key_missing textEnv c () body members eq_refl) as (H1 & H2).
  split; [split; [reflexivity|]; split; [reflexivity|]; apply Hk; by left|].
  split.
  - apply H1; [reflexivity|]. apply Hk. by left.
  - apply H2; [reflexivity|]. apply Hk. by right.
Defined.

(** X12 at a list with a [null] between two assets. *)
Lemma GetCrypto_one_entry_per_element_witness :
  let body := jsonText "{'crypto': [{'id': 1}, null, {'zabo_account_id': 2}]}" in
  let c := @constClient textEnv (inl body) in
  let elems := [json.JObject [("id", json.JNumber "1")]; json.JNull;
                json.JObject [("zabo_account_id", json.JNumber "2")]] in
  let l := [Some (mkCrypto (Some 1) None "" "" None "" zeroTime "" "" None
                    zeroTime None);
            None;
            Some (mkCrypto None (Some 2) "" "" None "" zeroTime "" "" None
                    zeroTime None)] in
  (Get c () "/v1/crypto" (Some ∅) = inl body ∧
   json.readValue body = inl (json.JObject [("crypto", json.JArray elems)]) ∧
   result (GetCrypto c ()) = (Some l, None)) ∧
  Forall2 (λ v x, x = None ↔ v = json.JNull) elems l ∧
  length l = length elems.
Proof.
  intros body c elems l. split; [repeat split|].
  exact (@GetCrypto_one_entry_per_element textEnv c () body elems l
           eq_refl eq_refl eq_refl).
Defined.

(** X13 at two calls for the asset 152. *)
Lemma path_determines_id_witness :
  let c := @constClient textEnv (inr unauthorized) in
  httpCalls (trace (UpdateManualCrypto c () 152 (Some zeroUpdateCrypto)))
    = httpCalls (trace (UpdateManualCrypto c () 152 (Some zeroUpdateCrypto))) ∧
  152 = 152.
Proof.
  intros c. split; [reflexivity|].
  exact (@path_determines_id textEnv c () 152 152 zeroUpdateCrypto eq_refl).
Defined.

(** X14 at a server that answers HTTP 401. *)
Lemma read_errors_wrap_witness :
  let c := @constClient textEnv (inr unauthorized) in
  let e := Errorf_w "get crypto: " unauthorized in
  snd (result (GetCrypto c ())) = Some e ∧
  ∃ cause, Unwrap e = Some cause ∧
    (HasPrefix (Error e) "get crypto: " = true ∨
     HasPrefix (Error e) "decode response: " = true).
Proof.
  intros c e. split; [reflexivity|].
  exact (proj1 (@read_errors_wrap textEnv c () e) eq_refl).
Defined.

(** X15 at the request of [GetCrypto]. *)
Lemma reads_send_no_parameters_witness :
  let c := @constClient textEnv (inr unauthorized) in
  let e := EvGet (env := textEnv) () "/v1/crypto" (Some ∅) in
  In e (trace (GetCrypto c ())) ∧
  ∀ ctx' path options, e = EvGet ctx' path options → options = Some ∅.
Proof.
  intros c e.
  assert (In e (trace (GetCrypto c ()))) as Hin by (left; reflexivity).
  split; [exact Hin|].
  exact (@reads_send_no_parameters textEnv c () 0 None e (or_introl Hin)).
Defined.

(** X16 at a response whose id is a string, after a member of another
    field that is wrong too. *)
Lemma identifier_must_be_integer_witness :
  let body := jsonText "{'name': 5, 'id': '152'}" in
  let c := @constClient textEnv (inl body) in
  let members := [("name", json.JNumber "5"); ("id", json.JString "152")] in
  (Put c () (Sprintf_d "/v1/crypto/manual/" 152)
     (PutUpdateCrypto (Some zeroUpdateCrypto)) = inl body ∧
   json.readValue body = inl (json.JObject members) ∧
   In ("id", json.JString "152") members ∧
   json.lookupField fields_Crypto "id" = Some "id" ∧
   ¬ sentIdentifier (json.JString "152")) ∧
  ∃ cause,
    json.Decode store_Crypto zeroCrypto body = inr cause ∧
    UpdateManualCrypto c () 152 (Some zeroUpdateCrypto)
      = ((None, Some (Errorf_w "decode response: " cause)),
         [EvValidate "UpdateCrypto";
          EvPut () (Sprintf_d "/v1/crypto/manual/" 152)
            (PutUpdateCrypto (Some zeroUpdateCrypto))]).
Proof.
  intros body c members.
  assert (¬ sentIdentifier (json.JString "152")) as Hv
    by (intros [H|(lit & n & H & _)]; discriminate).
  assert (In ("id", json.JString "152") members) as Hin by (right; left; reflexivity).
  split; [split; [reflexivity|]; split; [reflexivity|]; split; [exact Hin|];
          split; [reflexivity | exact Hv]|].
  exact (@identifier_must_be_integer textEnv c () 152 zeroUpdateCrypto body
           members "id" "id" (json.JString "152") eq_refl eq_refl Hin eq_refl
           (or_introl eq_refl) Hv).
Defined.
